(** * Leffa demo application: the orchestration function [leffa_predict]

    A shallow embedding of [app.py].  The function opens two image files,
    normalises them to a 768x1024 canvas, asks two pretrained predictors for a
    region mask and a dense map, bundles four images in a dict and hands the
    dict to a transform and to one of two generation back ends.

    The predictors, the transform, the back ends and the file system are
    black boxes to [app.py]; they are fields of an environment record, each
    a function of a world state that it may change and that may decide
    its answer.  Every call to one of them is appended to a log, so that
    statements of the kind "is never invoked" or "fails before anything is
    opened" are statements about that log.

    PIL images and NumPy arrays are modelled for the 8-bit modes L, LA, RGB
    and RGBA; samples are numbers below 256 kept in row-major order, the
    bands of a pixel next to each other, as both libraries store them. *)

From stdpp Require Import gmap strings list pretty.
From Stdlib Require Import NArith.

(** ** Python exceptions and results *)

Inductive exn : Type :=
| AssertionError (msg : string)      (* a failed [assert] *)
| UnboundLocalError (name : string)  (* a local read on a path that never bound it *)
| KeyError (key : string)            (* [d[key]] on a dict without [key] *)
| IndexError                         (* [l[0]] on an empty list, [t[1]] on a short tuple *)
| TypeError (msg : string)           (* [Image.fromarray] on an array it cannot handle *)
| Foreign (what : string).           (* raised inside a collaborator or by [Image.open] *)

Inductive outcome (A : Type) : Type :=
| Return (a : A)
| Raise (e : exn).
Arguments Return {A} a.
Arguments Raise {A} e.

(** ** PIL images and NumPy arrays *)

Module PIL.

Inductive Mode : Type := L | LA | RGB | RGBA.

Definition bands (m : Mode) : nat :=
  match m with L => 1 | LA => 2 | RGB => 3 | RGBA => 4 end.

(** [Image.size] is [(width, height)]. *)
Record Image : Type := mkImage {
  mode : Mode;
  width : nat;
  height : nat;
  pixels : list N
}.

(** The samples of an image regrouped as RGB, pixel by pixel: what
    [Image.convert("RGB")] does for each of the four modes (grey is
    repeated three times, alpha is dropped). *)
Fixpoint rgb_of_L (l : list N) : list N :=
  match l with
  | v :: t => v :: v :: v :: rgb_of_L t
  | [] => []
  end.

Fixpoint rgb_of_LA (l : list N) : list N :=
  match l with
  | v :: _ :: t => v :: v :: v :: rgb_of_LA t
  | _ => []
  end.

Fixpoint rgb_of_RGBA (l : list N) : list N :=
  match l with
  | r :: g :: b :: _ :: t => r :: g :: b :: rgb_of_RGBA t
  | _ => []
  end.

(** [img.convert("RGB")]: a new image; for an RGB image, a copy. *)
Definition convert_RGB (img : Image) : Image :=
  match mode img with
  | RGB => img
  | L => mkImage RGB (width img) (height img) (rgb_of_L (pixels img))
  | LA => mkImage RGB (width img) (height img) (rgb_of_LA (pixels img))
  | RGBA => mkImage RGB (width img) (height img) (rgb_of_RGBA (pixels img))
  end.

End PIL.
Import PIL.

Module np.

(** A uint8 array: its shape and its elements in C order. *)
Record ndarray : Type := mkArray {
  shape : list nat;
  buf : list N
}.

(** [np.array(img)] for a PIL image: shape (height, width) for mode L,
    (height, width, bands) otherwise. *)
Definition array (img : Image) : ndarray :=
  match mode img with
  | L => mkArray [height img; width img] (pixels img)
  | m => mkArray [height img; width img; bands m] (pixels img)
  end.

(** [np.ones_like(a)]: same shape and dtype, every element 1. *)
Definition ones_like (a : ndarray) : ndarray :=
  mkArray (shape a) (map (fun _ => 1%N) (buf a)).

(** [a * k] for a Python int [k]: the product stays uint8 and wraps. *)
Definition mul (a : ndarray) (k : N) : ndarray :=
  mkArray (shape a) (map (fun v => ((v * k) mod 256)%N) (buf a)).

End np.
Import np.

(** Python's [repr] of a tuple of two or more ints. *)
Definition tuple_repr (l : list nat) : string :=
  "(" +:+ String.concat ", " (map pretty l) +:+ ")".

(** [Image.fromarray(a)] for a uint8 array.  Pillow looks the mode up under
    the key [(1, 1) + shape[2:]] with the typestr "|u1": one or two
    dimensions give mode L (a one-dimensional array is a column, of width
    1), a third dimension of 2, 3 or 4 gives LA, RGB or RGBA, and any other
    key raises TypeError with the key in its message.  The size is then read
    as [shape[1], shape[0]], which raises IndexError on a shape without
    dimensions. *)
Definition Image_fromarray (a : ndarray) : outcome Image :=
  match shape a with
  | [] => Raise IndexError
  | [h] => Return (mkImage L 1 h (buf a))
  | [h; w] => Return (mkImage L w h (buf a))
  | [h; w; 2] => Return (mkImage LA w h (buf a))
  | [h; w; 3] => Return (mkImage RGB w h (buf a))
  | [h; w; 4] => Return (mkImage RGBA w h (buf a))
  | _ :: _ :: rest =>
      Raise (TypeError ("Cannot handle this data type: " +:+
                        tuple_repr (1 :: 1 :: rest) +:+ ", |u1"))
  end.

(** ** The Image Normalizer *)

Section Normalizer.

(** What the spec leaves open: the interpolation that rescales an image
    to a given width and height, and the neutral colour of the canvas. *)
Variable resample : Image -> nat -> nat -> Image.
Variable fill : N * N * N.

(** The box of the aspect-preserving fit: the scale is the smaller of
    [tw/w] and [th/h], kept as an exact fraction, and both sides are
    rounded down. *)
Definition fit_box (w h tw th : nat) : nat * nat :=
  if (tw * h <=? th * w)%nat then (tw, h * tw / w) else (w * th / h, th).

(** The pixel at column [x], row [y], read as RGB. *)
Definition getpixel_rgb (img : Image) (x y : nat) : N * N * N :=
  let at_ k := nth ((y * width img + x) * bands (mode img) + k) (pixels img) 0%N in
  match mode img with
  | L | LA => (at_ 0, at_ 0, at_ 0)
  | RGB | RGBA => (at_ 0, at_ 1, at_ 2)
  end.

(** One pixel of the canvas after pasting [img] with its corner at
    [(left, top)]; the paste is clipped to the canvas. *)
Definition pasted (img : Image) (left top x y : nat) : list N :=
  let '(r, g, b) :=
    if ((left <=? x) && (x <? left + width img) &&
        (top <=? y) && (y <? top + height img))%nat
    then getpixel_rgb img (x - left) (y - top)
    else fill in
  [r; g; b].

(** Modelled from the spec: [utils.utils.resize_and_center], which
    [app.py] imports and whose file is not among the sources.  Section 4.1:
    compute the scale factor that fits the image inside the target box
    without exceeding either dimension, resize using that scale, paste the
    resized image centered onto a blank canvas of the target size; section
    3 makes the result a 3-channel colour grid. *)
Definition resize_and_center (image : Image) (target_width target_height : nat) : Image :=
  let '(new_width, new_height) :=
    fit_box (width image) (height image) target_width target_height in
  let resized := resample image new_width new_height in
  let left := (target_width - width resized) / 2 in
  let top := (target_height - height resized) / 2 in
  mkImage RGB target_width target_height
    (flat_map (fun y => flat_map (fun x => pasted resized left top x y)
                                 (seq 0 target_width))
              (seq 0 target_height)).

End Normalizer.

(** Nearest-neighbour interpolation, one choice of [resample]. *)
Definition nearest (img : Image) (w h : nat) : Image :=
  mkImage (mode img) w h
    (flat_map (fun y => flat_map (fun x =>
       map (fun k => nth (((y * height img / h) * width img + x * width img / w)
                          * bands (mode img) + k) (pixels img) 0%N)
           (seq 0 (bands (mode img))))
       (seq 0 w)) (seq 0 h)).

(** ** The world outside [app.py] *)

Section Orchestration.

(** [W] is the state of everything outside the function (files, model
    weights, random seeds, the GPU); [T] is what [LeffaTransform] returns. *)
Context {W T : Type}.

(** A call of a collaborator: it reads and may change the world, and it
    returns or raises. *)
Definition call (A : Type) : Type := W -> outcome A * W.

(** What [app.py] imports and the module-level objects of lines 16-36.
    - [Image_open] is [PIL.Image.open]: it raises on a path it cannot read
      or identify, and otherwise returns an image whose pixels PIL decodes
      only when they are first used.
    - [normalizer] and [normalizer_raises] are the two halves of
      [utils.utils.resize_and_center], whose file is not among the sources
      ([resize_and_center] above is the spec's account of its result).  The
      call is where the pixels of an opened file are first used, so it is
      where a file that opened but does not decode fails:
      [normalizer_raises img] is the exception the call raises on [img], if
      it raises, and [normalizer img w h] is the image it returns
      otherwise.  Both are functions of the image alone.
    - [mask_predictor], [predict_iuv] and [predict_seg] are the pretrained
      predictors; [LeffaTransform] stands for building the transform on line
      68 and calling it on line 76; [vt_inference] and [pt_inference] are
      the two back ends. *)
Record Env : Type := mkEnv {
  Image_open : string -> call Image;
  normalizer : Image -> nat -> nat -> Image;
  normalizer_raises : Image -> option exn;
  mask_predictor : Image -> string -> call (gmap string Image);
  predict_iuv : ndarray -> call ndarray;
  predict_seg : ndarray -> call ndarray;
  LeffaTransform : gmap string (list Image) -> call T;
  vt_inference : T -> call (gmap string (list Image));
  pt_inference : T -> call (gmap string (list Image))
}.

(** One entry of the log per call, with what was passed and what came back. *)
Inductive event : Type :=
| Call_Image_open (path : string) (r : outcome Image)
| Call_mask_predictor (img : Image) (hint : string) (r : outcome (gmap string Image))
| Call_predict_iuv (a : ndarray) (r : outcome ndarray)
| Call_predict_seg (a : ndarray) (r : outcome ndarray)
| Call_transform (data : gmap string (list Image)) (r : outcome T)
| Call_vt_inference (data : T) (r : outcome (gmap string (list Image)))
| Call_pt_inference (data : T) (r : outcome (gmap string (list Image))).

Record state : Type := mkState {
  world : W;
  log : list event
}.

(** Computations that thread the state and may raise; the state reached
    when an exception is raised is kept. *)
Definition M (A : Type) : Type := state -> outcome A * state.

Definition ret {A} (a : A) : M A := fun s => (Return a, s).

Definition bind {A B} (m : M A) (k : A -> M B) : M B :=
  fun s => match m s with
           | (Return a, s') => k a s'
           | (Raise e, s') => (Raise e, s')
           end.

Definition raise {A} (e : exn) : M A := fun s => (Raise e, s).

Definition lift {A} (o : outcome A) : M A := fun s => (o, s).

(** Invoke a collaborator and log the call, whether it returns or raises. *)
Definition invoke {A} (c : call A) (ev : outcome A -> event) : M A :=
  fun s => let '(r, w) := c (world s) in
           (r, mkState w (log s ++ [ev r])).

(** [assert c, msg] *)
Definition assert (c : bool) (msg : string) : M unit :=
  if c then ret tt else raise (AssertionError msg).

(** [d[key]] *)
Definition getitem {V} (d : gmap string V) (key : string) : M V :=
  match d !! key with
  | Some v => ret v
  | None => raise (KeyError key)
  end.

(** [l[0]] *)
Definition first {V} (l : list V) : M V :=
  match l with
  | v :: _ => ret v
  | [] => raise IndexError
  end.

(** Reading a local variable that only some branches assign. *)
Definition local {V} (name : string) (v : option V) : M V :=
  match v with
  | Some x => ret x
  | None => raise (UnboundLocalError name)
  end.

End Orchestration.
Arguments Env : clear implicits.
Arguments event : clear implicits.
Arguments state : clear implicits.
Arguments M : clear implicits.

#[export] Instance M_ret {W T} : MRet (M W T) := fun A => @ret W T A.
#[export] Instance M_bind {W T} : MBind (M W T) := fun A B k m => @bind W T A B m k.

(** ** [app.py] *)

Section App.

Context {W T : Type}.
Variable env : Env W T.

(** [resize_and_center(image, target_width, target_height)] as [app.py]
    calls it: it raises or returns. *)
Definition call_resize_and_center (image : Image) (target_width target_height : nat)
  : M W T Image :=
  match normalizer_raises env image with
  | Some e => raise e
  | None => ret (normalizer env image target_width target_height)
  end.

(** Lines 39-84.  The [assert] is taken as active (the interpreter is not
    run with -O).  [mask], [densepose] and [inference] are bound by an
    [if]/[elif] without [else]: they are optional here and reading one that
    was not bound raises UnboundLocalError, as Python does. *)
Definition leffa_predict (src_image_path ref_image_path control_type : string)
  : M W T ndarray :=
  assert (existsb (String.eqb control_type) ["virtual_tryon"; "pose_transfer"])
         ("Invalid control type: " +:+ control_type);;
  src_image ← invoke (Image_open env src_image_path) (Call_Image_open src_image_path);
  ref_image ← invoke (Image_open env ref_image_path) (Call_Image_open ref_image_path);
  src_image ← call_resize_and_center src_image 768 1024;
  ref_image ← call_resize_and_center ref_image 768 1024;

  let src_image_array := np.array src_image in
  let ref_image_array := np.array ref_image in

  (* Mask *)
  '(src_image, mask) ←
    (if String.eqb control_type "virtual_tryon" then
       let src_image := convert_RGB src_image in
       d ← invoke (mask_predictor env src_image "upper")
                  (Call_mask_predictor src_image "upper");
       mask ← getitem d "mask";
       mret (src_image, Some mask)
     else if String.eqb control_type "pose_transfer" then
       mask ← lift (Image_fromarray (np.mul (np.ones_like src_image_array) 255));
       mret (src_image, Some mask)
     else mret (src_image, None));

  (* DensePose *)
  src_image_iuv_array ← invoke (predict_iuv env src_image_array)
                               (Call_predict_iuv src_image_array);
  src_image_seg_array ← invoke (predict_seg env src_image_array)
                               (Call_predict_seg src_image_array);
  src_image_iuv ← lift (Image_fromarray src_image_iuv_array);
  src_image_seg ← lift (Image_fromarray src_image_seg_array);
  let densepose :=
    if String.eqb control_type "virtual_tryon" then Some src_image_seg
    else if String.eqb control_type "pose_transfer" then Some src_image_iuv
    else None in

  (* Leffa *)
  mask ← local "mask" mask;
  densepose ← local "densepose" densepose;
  let data : gmap string (list Image) :=
    <["src_image" := [src_image]]>
    (<["ref_image" := [ref_image]]>
    (<["mask" := [mask]]>
    (<["densepose" := [densepose]]> ∅))) in
  data ← invoke (LeffaTransform env data) (Call_transform data);
  inference ← local "inference"
    (if String.eqb control_type "virtual_tryon"
     then Some (fun d => invoke (vt_inference env d) (Call_vt_inference d))
     else if String.eqb control_type "pose_transfer"
     then Some (fun d => invoke (pt_inference env d) (Call_pt_inference d))
     else None);
  output ← inference data;
  generated ← getitem output "generated_image";
  gen_image ← first generated;
  mret (np.array gen_image).

Definition leffa_predict_vt (src_image_path ref_image_path : string) : M W T ndarray :=
  leffa_predict src_image_path ref_image_path "virtual_tryon".

Definition leffa_predict_pt (src_image_path ref_image_path : string) : M W T ndarray :=
  leffa_predict src_image_path ref_image_path "pose_transfer".

(** A run from world [w] with an empty log. *)
Definition run {A} (m : M W T A) (w : W) : outcome A * state W T :=
  m (mkState w []).

Definition trace (src ref control_type : string) (w : W) : list (event T) :=
  log (snd (run (leffa_predict src ref control_type) w)).

End App.

(** ** Reading the log *)

Section Log.

Context {T : Type}.

(** The dicts handed to [LeffaTransform]: the assembled requests. *)
Definition requests (l : list (event T)) : list (gmap string (list Image)) :=
  flat_map (fun ev => match ev with Call_transform d _ => [d] | _ => [] end) l.

Definition is_open (ev : event T) : bool :=
  match ev with Call_Image_open _ _ => true | _ => false end.

Definition is_mask_call (ev : event T) : bool :=
  match ev with Call_mask_predictor _ _ _ => true | _ => false end.

Definition is_dense_call (ev : event T) : bool :=
  match ev with Call_predict_iuv _ _ | Call_predict_seg _ _ => true | _ => false end.

Definition is_backend_call (ev : event T) : bool :=
  match ev with Call_vt_inference _ _ | Call_pt_inference _ _ => true | _ => false end.

End Log.

(** A collaborator is deterministic when the world does not decide its answer. *)
Definition deterministic {W A} (c : W -> outcome A * W) : Prop :=
  forall w1 w2, fst (c w1) = fst (c w2).

(** The request of lines 70-75. *)
Definition request (src_image ref_image mask densepose : Image) : gmap string (list Image) :=
  <["src_image" := [src_image]]>
  (<["ref_image" := [ref_image]]>
  (<["mask" := [mask]]>
  (<["densepose" := [densepose]]> ∅))).

(** The all-white mask of line 55. *)
Definition white_like (a : ndarray) : ndarray := np.mul (np.ones_like a) 255.

(** An environment with another normalizer. *)
Definition with_normalizer {W T} (env : Env W T) (f : Image -> nat -> nat -> Image) : Env W T :=
  mkEnv (Image_open env) f (normalizer_raises env) (mask_predictor env) (predict_iuv env) (predict_seg env)
        (LeffaTransform env) (vt_inference env) (pt_inference env).

(** ** The order of the calls *)

(** What a log entry is a call of; an open keeps its path. *)
Inductive kind : Type :=
| KOpen (path : string) | KMask | KIuv | KSeg | KTransform | KVt | KPt.

Definition kind_of {T} (ev : event T) : kind :=
  match ev with
  | Call_Image_open path _ => KOpen path
  | Call_mask_predictor _ _ _ => KMask
  | Call_predict_iuv _ _ => KIuv
  | Call_predict_seg _ _ => KSeg
  | Call_transform _ _ => KTransform
  | Call_vt_inference _ _ => KVt
  | Call_pt_inference _ _ => KPt
  end.

(** The calls of lines 42-81 in program order, for each task selector. *)
Definition protocol (src ref control_type : string) : list kind :=
  if String.eqb control_type "virtual_tryon"
  then [KOpen src; KOpen ref; KMask; KIuv; KSeg; KTransform; KVt]
  else if String.eqb control_type "pose_transfer"
  then [KOpen src; KOpen ref; KIuv; KSeg; KTransform; KPt]
  else [].

(** The exception a logged call ended with, if it raised. *)
Definition raised {T} (ev : event T) : option exn :=
  match ev with
  | Call_Image_open _ (Raise e) | Call_mask_predictor _ _ (Raise e)
  | Call_predict_iuv _ (Raise e) | Call_predict_seg _ (Raise e)
  | Call_transform _ (Raise e) | Call_vt_inference _ (Raise e)
  | Call_pt_inference _ (Raise e) => Some e
  | _ => None
  end.

(** No entry follows a call that raised, and that exception is the
    outcome [o] of the run. *)
Fixpoint stops_at_raise {T A} (o : outcome A) (l : list (event T)) : Prop :=
  match l with
  | [] => True
  | ev :: l' =>
      match raised ev with
      | Some e => l' = [] /\ o = Raise e
      | None => stops_at_raise o l'
      end
  end.

(** The exception of the last entry of a log. *)
Definition last_raised {T} (l : list (event T)) : option exn :=
  match last l with
  | Some ev => raised ev
  | None => None
  end.

(** Lines 82-84: [np.array(output["generated_image"][0])]. *)
Definition generated (output : gmap string (list Image)) : outcome ndarray :=
  match output !! "generated_image" with
  | None => Raise (KeyError "generated_image")
  | Some [] => Raise IndexError
  | Some (g :: _) => Return (np.array g)
  end.

Section RunFacts.
Context {W T : Type}.
Variable env : Env W T.

(** The exceptions that come from no logged call: the one
    [resize_and_center] raises on some image, KeyError "mask" on the try-on
    path, the one [Image.fromarray] raises on some array, KeyError
    "generated_image" and IndexError. *)
Definition own_failure (try_on : bool) (e : exn) : Prop :=
  (exists img, normalizer_raises env img = Some e) \/
  (try_on = true /\ e = KeyError "mask") \/
  (exists a, Image_fromarray a = Raise e) \/
  e = KeyError "generated_image" \/ e = IndexError.

(** What is shown of the outcome [o] and the log [tr] of every run from
    world [w], one task at a time: [backend] is the log entry of the task's
    back end and [try_on] tells the try-on path. *)
Definition run_facts (src ref control_type : string) (w : W)
    (backend : T -> outcome (gmap string (list Image)) -> event T)
    (try_on : bool)
    (o : outcome ndarray) (tr : list (event T)) : Prop :=
  map kind_of tr `prefix_of` protocol src ref control_type /\
  stops_at_raise o tr /\
  (forall e, o = Raise e -> last_raised tr = Some e \/ own_failure try_on e) /\
  (forall b output, In (backend b (Return output)) tr -> o = generated output) /\
  (forall a, o = Return a ->
     map kind_of tr = protocol src ref control_type /\
     Forall (fun ev => raised ev = None) tr /\
     exists b output, In (backend b (Return output)) tr) /\
  (forall b r, In (backend b r) tr -> exists d, In (Call_transform d (Return b)) tr) /\
  (forall img hint dct,
     In (Call_mask_predictor img hint (Return dct)) tr -> dct !! "mask" = None ->
     o = Raise (KeyError "mask") /\
     Forall (fun ev => is_dense_call ev = false) tr /\ requests tr = []) /\
  (forall a1 arr1 a2 arr2 e,
     In (Call_predict_iuv a1 (Return arr1)) tr ->
     In (Call_predict_seg a2 (Return arr2)) tr ->
     Image_fromarray arr1 = Raise e \/
     (exists img, Image_fromarray arr1 = Return img) /\ Image_fromarray arr2 = Raise e ->
     o = Raise e /\
     requests tr = [] /\ Forall (fun ev => is_backend_call ev = false) tr) /\
  (forall ev, In ev tr -> is_mask_call ev = true \/ is_dense_call ev = true ->
     exists i w1,
       Image_open env src w = (Return i, w1) /\
       match ev with
       | Call_mask_predictor img hint _ =>
           img = convert_RGB (normalizer env i 768 1024) /\ hint = "upper"
       | Call_predict_iuv a _ | Call_predict_seg a _ =>
           a = np.array (normalizer env i 768 1024)
       | _ => True
       end).

End RunFacts.

(** ** A small world to run the function in *)

Module Demo.

Definition person : Image := mkImage RGBA 2 2 [10; 20; 30; 255; 40; 50; 60; 0;
                                              70; 80; 90; 128; 1; 2; 3; 4]%N.
Definition garment : Image := mkImage L 3 1 [5; 6; 7]%N.

(** A file with the header of a 2x2 RGB image and three of its twelve samples. *)
Definition cut_short : Image := mkImage RGB 2 2 [1; 2; 3]%N.

(** Two files that decode and one that opens and is cut short; every other
    path fails to open. *)
Definition open (path : string) : nat -> outcome Image * nat := fun w =>
  if String.eqb path "person.png" then (Return person, S w)
  else if String.eqb path "garment.png" then (Return garment, S w)
  else if String.eqb path "truncated.png" then (Return cut_short, S w)
  else (Raise (Foreign "PIL.UnidentifiedImageError"), S w).

Definition agnostic : Image := mkImage L 1 1 [0%N].

Definition masker (img : Image) (hint : string) : nat -> outcome (gmap string Image) * nat :=
  fun w => (Return (<["mask" := agnostic]> (<["densepose" := mkImage L 1 1 [9%N]]> ∅)), S w).

Definition iuv (a : ndarray) : nat -> outcome ndarray * nat :=
  fun w => (Return (mkArray [1; 1; 3] [1; 2; 3]%N), S w).

Definition seg (a : ndarray) : nat -> outcome ndarray * nat :=
  fun w => (Return (mkArray [1; 1; 3] [7; 7; 7]%N), S w).

Definition transform (d : gmap string (list Image))
  : nat -> outcome (gmap string (list Image)) * nat :=
  fun w => (Return d, S w).

(** A back end whose picture depends on the world it runs in. *)
Definition backend (d : gmap string (list Image))
  : nat -> outcome (gmap string (list Image)) * nat :=
  fun w => (Return (<["generated_image" := [mkImage L 1 1 [N.of_nat w]]]> ∅), S w).

Definition white : N * N * N := (255, 255, 255)%N.

Definition normalize : Image -> nat -> nat -> Image := resize_and_center nearest white.

(** A file that opened does not decode when it holds fewer samples than
    its header announces. *)
Definition truncated (img : Image) : option exn :=
  if (length (pixels img) <? height img * width img * bands (mode img))%nat
  then Some (Foreign "OSError: image file is truncated")
  else None.

Definition env : Env nat (gmap string (list Image)) :=
  mkEnv open normalize truncated masker iuv seg transform backend backend.

(** The same world with a normalizer that stretches the image to the
    canvas and keeps the mode of its input. *)
Definition keep_mode (img : Image) (w h : nat) : Image := nearest img w h.

Definition env_keep : Env nat (gmap string (list Image)) := with_normalizer env keep_mode.

(** The values of the two runs below. *)
Definition src_n : Image := normalize person 768 1024.
Definition ref_n : Image := normalize garment 768 1024.
Definition iuv_image : Image := mkImage RGB 1 1 [1; 2; 3]%N.
Definition seg_image : Image := mkImage RGB 1 1 [7; 7; 7]%N.
Definition white_mask : Image :=
  mkImage RGB 768 1024 (buf (white_like (np.array src_n))).
Definition vt_data : gmap string (list Image) :=
  request (convert_RGB src_n) ref_n agnostic seg_image.
Definition pt_data : gmap string (list Image) :=
  request src_n ref_n white_mask iuv_image.

(** The same with the normalizer that keeps the mode: the source stays RGBA. *)
Definition keep_src : Image := keep_mode person 768 1024.
Definition keep_ref : Image := keep_mode garment 768 1024.
Definition keep_vt_data : gmap string (list Image) :=
  request (convert_RGB keep_src) keep_ref agnostic seg_image.

(** Worlds in which one collaborator answers badly. *)
Definition env_nomask : Env nat (gmap string (list Image)) :=
  mkEnv open normalize truncated
        (fun _ _ w => (Return (<["densepose" := agnostic]> ∅), S w))
        iuv seg transform backend backend.

Definition env_badshape : Env nat (gmap string (list Image)) :=
  mkEnv open normalize truncated masker
        (fun _ w => (Return (mkArray [1; 1; 1; 1] [0%N]), S w))
        seg transform backend backend.


Definition env_nopicture : Env nat (gmap string (list Image)) :=
  mkEnv open normalize truncated masker iuv seg transform
        (fun _ w => (Return (<["generated_image" := []]> ∅), S w))
        backend.

(** What [backend] returns in world [w]. *)
Definition picture (w : nat) : gmap string (list Image) :=
  <["generated_image" := [mkImage L 1 1 [N.of_nat w]]]> ∅.

End Demo.

(** ** Symbolic execution *)

Ltac case_in H :=
  match type of H with
  | context [match ?x with _ => _ end] =>
      lazymatch x with
      | context [match _ with _ => _ end] => fail
      | _ => destruct x eqn:?
      end
  end.

Ltac unfold_run H :=
  unfold trace, run, leffa_predict, call_resize_and_center in H;
  unfold mbind, M_bind, bind, invoke, lift, mret, M_ret, local, getitem, first, raise, ret in H.

Ltac exec_in H :=
  cbn -[np.array convert_RGB Image_fromarray np.mul np.ones_like lookup insert] in H;
  repeat (case_in H; cbn [log world snd fst app] in H).

(** Replace a call by its known answer. *)
Ltac step_with E H := rewrite E in H; cbn [log world snd fst app] in H.

Section Paths.

Context {W T : Type}.
Variable env : Env W T.

Abbreviation norm i := (normalizer env i 768 1024).

Inductive vt_assembled (src ref : string) (w : W)
  : gmap string (list Image) -> outcome T -> list (event T) -> Prop :=
| Vt_assembled i w1 i' w2 dct w3 m a1 w4 a2 w5 iuv seg r w6 :
    Image_open env src w = (Return i, w1) ->
    Image_open env ref w1 = (Return i', w2) ->
    normalizer_raises env i = None ->
    normalizer_raises env i' = None ->
    mask_predictor env (convert_RGB (norm i)) "upper" w2 = (Return dct, w3) ->
    dct !! "mask" = Some m ->
    predict_iuv env (np.array (norm i)) w3 = (Return a1, w4) ->
    predict_seg env (np.array (norm i)) w4 = (Return a2, w5) ->
    Image_fromarray a1 = Return iuv ->
    Image_fromarray a2 = Return seg ->
    LeffaTransform env (request (convert_RGB (norm i)) (norm i') m seg) w5 = (r, w6) ->
    vt_assembled src ref w
      (request (convert_RGB (norm i)) (norm i') m seg) r
      [Call_Image_open src (Return i);
       Call_Image_open ref (Return i');
       Call_mask_predictor (convert_RGB (norm i)) "upper" (Return dct);
       Call_predict_iuv (np.array (norm i)) (Return a1);
       Call_predict_seg (np.array (norm i)) (Return a2);
       Call_transform (request (convert_RGB (norm i)) (norm i') m seg) r].

Inductive pt_assembled (src ref : string) (w : W)
  : gmap string (list Image) -> outcome T -> list (event T) -> Prop :=
| Pt_assembled i w1 i' w2 m a1 w3 a2 w4 iuv seg r w5 :
    Image_open env src w = (Return i, w1) ->
    Image_open env ref w1 = (Return i', w2) ->
    normalizer_raises env i = None ->
    normalizer_raises env i' = None ->
    Image_fromarray (white_like (np.array (norm i))) = Return m ->
    predict_iuv env (np.array (norm i)) w2 = (Return a1, w3) ->
    predict_seg env (np.array (norm i)) w3 = (Return a2, w4) ->
    Image_fromarray a1 = Return iuv ->
    Image_fromarray a2 = Return seg ->
    LeffaTransform env (request (norm i) (norm i') m iuv) w4 = (r, w5) ->
    pt_assembled src ref w
      (request (norm i) (norm i') m iuv) r
      [Call_Image_open src (Return i);
       Call_Image_open ref (Return i');
       Call_predict_iuv (np.array (norm i)) (Return a1);
       Call_predict_seg (np.array (norm i)) (Return a2);
       Call_transform (request (norm i) (norm i') m iuv) r].

Lemma vt_request src ref w d r :
  In (Call_transform d r) (trace env src ref "virtual_tryon" w) ->
  exists pre rest,
    vt_assembled src ref w d r pre /\
    trace env src ref "virtual_tryon" w = pre ++ rest /\
    Forall (fun ev => is_backend_call ev = true) rest.
Proof.
  remember (trace env src ref "virtual_tryon" w) as tr eqn:Htr.
  intros H. unfold_run Htr. exec_in Htr.
  all: subst tr; repeat destruct H as [H | H]; try discriminate H; try contradiction.
  all: injection H as <- <-.
  all: eexists _, _; split; [econstructor; eassumption |].
  all: split; [reflexivity | repeat constructor].
Qed.

Lemma pt_request src ref w d r :
  In (Call_transform d r) (trace env src ref "pose_transfer" w) ->
  exists pre rest,
    pt_assembled src ref w d r pre /\
    trace env src ref "pose_transfer" w = pre ++ rest /\
    Forall (fun ev => is_backend_call ev = true) rest.
Proof.
  remember (trace env src ref "pose_transfer" w) as tr eqn:Htr.
  intros H. unfold_run Htr. exec_in Htr.
  all: subst tr; repeat destruct H as [H | H]; try discriminate H; try contradiction.
  all: injection H as <- <-.
  all: eexists _, _; split; [econstructor; eassumption |].
  all: split; [reflexivity | repeat constructor].
Qed.
End Paths.

(** ** Facts about images and arrays *)

Lemma length_flat_map_const {A B} (f : A -> list B) (k : nat) (l : list A) :
  (forall x, length (f x) = k) -> length (flat_map f l) = length l * k.
Proof.
  intros Hf. induction l as [|x l IH]; simpl; [reflexivity|].
  rewrite length_app, Hf, IH. reflexivity.
Qed.

Lemma length_pasted fill img left top x y : length (pasted fill img left top x y) = 3.
Proof.
  unfold pasted.
  match goal with |- context [match ?p with _ => _ end] => destruct p as [[r g] b] end.
  reflexivity.
Qed.

Lemma resize_and_center_canvas resample fill image tw th :
  let out := resize_and_center resample fill image tw th in
  mode out = RGB /\ width out = tw /\ height out = th /\
  length (pixels out) = th * (tw * 3).
Proof.
  unfold resize_and_center. destruct (fit_box _ _ _ _) as [nw nh]. simpl.
  repeat split.
  rewrite (length_flat_map_const _ (tw * 3)), length_seq; [reflexivity|].
  intros y. rewrite (length_flat_map_const _ 3), length_seq; [reflexivity|].
  intros x. apply length_pasted.
Qed.

(** The fitted box does not exceed the target box. *)
Lemma fit_box_inside w h tw th nw nh :
  0 < w -> 0 < h -> fit_box w h tw th = (nw, nh) -> nw <= tw /\ nh <= th.
Proof.
  unfold fit_box. intros Hw Hh.
  destruct (Nat.leb_spec (tw * h) (th * w)) as [Hle|Hlt]; intros [= <- <-]; split; try lia.
  - apply Nat.Div0.div_le_upper_bound. lia.
  - apply Nat.Div0.div_le_upper_bound. lia.
Qed.

Lemma convert_RGB_size img :
  mode (convert_RGB img) = RGB /\
  width (convert_RGB img) = width img /\ height (convert_RGB img) = height img.
Proof. unfold convert_RGB. destruct img as [[] w h p]; simpl; auto. Qed.

Lemma convert_RGB_id img : mode img = RGB -> convert_RGB img = img.
Proof. unfold convert_RGB. intros ->. reflexivity. Qed.

Lemma white_buf (l : list N) :
  map (fun v => ((v * 255) mod 256)%N) (map (fun _ : N => 1%N) l) = repeat 255%N (length l).
Proof. induction l as [|x l IH]; simpl; [reflexivity|]. rewrite IH. reflexivity. Qed.

Lemma Forall_repeat_same {A} (x : A) (n : nat) : Forall (fun v => v = x) (repeat x n).
Proof. induction n; simpl; constructor; auto. Qed.

(** The mask of line 55 keeps the mode and the size of the image whose array
    it is made from, and every sample of it is 255. *)
Lemma white_like_image img m :
  Image_fromarray (white_like (np.array img)) = Return m ->
  mode m = mode img /\ width m = width img /\ height m = height img /\
  pixels m = repeat 255%N (length (pixels img)).
Proof.
  unfold white_like, np.mul, np.ones_like, np.array, Image_fromarray.
  destruct img as [[] w h p]; simpl; intros [= <-]; simpl; rewrite white_buf; auto.
Qed.


(** ** The task selector *)

Lemma task_cases (control_type : string) :
  control_type = "virtual_tryon" \/ control_type = "pose_transfer" \/
  (control_type <> "virtual_tryon" /\ control_type <> "pose_transfer").
Proof.
  destruct (String.eqb_spec control_type "virtual_tryon"); [auto|].
  destruct (String.eqb_spec control_type "pose_transfer"); auto.
Qed.

Lemma in_tasks_false (control_type : string) :
  control_type <> "virtual_tryon" -> control_type <> "pose_transfer" ->
  existsb (String.eqb control_type) ["virtual_tryon"; "pose_transfer"] = false.
Proof.
  intros H1 H2. simpl.
  apply String.eqb_neq in H1, H2. rewrite H1, H2. reflexivity.
Qed.

Section Claims.

Context {W T : Type}.
Variable env : Env W T.

Abbreviation norm i := (normalizer env i 768 1024).

Lemma invalid_task_raises src ref control_type (s : state W T) :
  control_type <> "virtual_tryon" -> control_type <> "pose_transfer" ->
  leffa_predict env src ref control_type s =
  (Raise (AssertionError ("Invalid control type: " +:+ control_type)), s).
Proof.
  intros H1 H2. unfold leffa_predict.
  rewrite (in_tasks_false _ H1 H2). reflexivity.
Qed.

Lemma invalid_task_trace src ref control_type w :
  control_type <> "virtual_tryon" -> control_type <> "pose_transfer" ->
  trace env src ref control_type w = [].
Proof.
  intros H1 H2. unfold trace, run. rewrite invalid_task_raises; auto.
Qed.

(** C1. A task selector other than "virtual_tryon" and "pose_transfer" makes
    [leffa_predict] raise the AssertionError of line 40 (the spec's
    InvalidTaskError) in the state it was called in: the world is untouched
    and nothing is logged, so no image was opened and no predictor or back
    end was invoked. *)
Theorem invalid_task_fails_first src ref control_type (s : state W T) :
  control_type <> "virtual_tryon" -> control_type <> "pose_transfer" ->
  leffa_predict env src ref control_type s =
    (Raise (AssertionError ("Invalid control type: " +:+ control_type)), s) /\
  trace env src ref control_type (world s) = [].
Proof.
  intros H1 H2. split.
  - apply invalid_task_raises; assumption.
  - apply invalid_task_trace; assumption.
Qed.

(** What happens when the first or the second [Image.open] raises. *)
Lemma open_src_raises src ref control_type w e w1 :
  control_type = "virtual_tryon" \/ control_type = "pose_transfer" ->
  Image_open env src w = (Raise e, w1) ->
  run (leffa_predict env src ref control_type) w =
  (Raise e, mkState w1 [Call_Image_open src (Raise e)]).
Proof.
  intros Hct Ho. unfold run, leffa_predict.
  destruct Hct as [-> | ->]; cbn [existsb String.eqb Ascii.eqb Bool.eqb orb assert andb].
  all: unfold mbind, M_bind, bind, invoke, ret; cbn [world log app]; rewrite Ho; reflexivity.
Qed.

Lemma open_ref_raises src ref control_type w i w1 e w2 :
  control_type = "virtual_tryon" \/ control_type = "pose_transfer" ->
  Image_open env src w = (Return i, w1) ->
  Image_open env ref w1 = (Raise e, w2) ->
  run (leffa_predict env src ref control_type) w =
  (Raise e, mkState w2 [Call_Image_open src (Return i); Call_Image_open ref (Raise e)]).
Proof.
  intros Hct Ho Ho'. unfold run, leffa_predict.
  destruct Hct as [-> | ->]; cbn [existsb String.eqb Ascii.eqb Bool.eqb orb assert andb].
  all: unfold mbind, M_bind, bind, invoke, ret; cbn [world log app]; rewrite Ho;
    cbn [world log app]; rewrite Ho'; reflexivity.
Qed.

(** What happens when both files open and [resize_and_center] raises, on
    the source image (line 44) or on the reference image (line 45). *)
Lemma normalize_src_raises src ref control_type w i w1 i' w2 e :
  control_type = "virtual_tryon" \/ control_type = "pose_transfer" ->
  Image_open env src w = (Return i, w1) ->
  Image_open env ref w1 = (Return i', w2) ->
  normalizer_raises env i = Some e ->
  run (leffa_predict env src ref control_type) w =
  (Raise e, mkState w2 [Call_Image_open src (Return i); Call_Image_open ref (Return i')]).
Proof.
  intros Hct Ho Ho' Hn. unfold run, leffa_predict, call_resize_and_center.
  destruct Hct as [-> | ->]; cbn [existsb String.eqb Ascii.eqb Bool.eqb orb assert andb].
  all: unfold mbind, M_bind, bind, invoke, ret, raise; cbn [world log app]; rewrite Ho;
    cbn [world log app]; rewrite Ho'; cbn [world log app]; rewrite Hn; reflexivity.
Qed.

Lemma normalize_ref_raises src ref control_type w i w1 i' w2 e :
  control_type = "virtual_tryon" \/ control_type = "pose_transfer" ->
  Image_open env src w = (Return i, w1) ->
  Image_open env ref w1 = (Return i', w2) ->
  normalizer_raises env i = None ->
  normalizer_raises env i' = Some e ->
  run (leffa_predict env src ref control_type) w =
  (Raise e, mkState w2 [Call_Image_open src (Return i); Call_Image_open ref (Return i')]).
Proof.
  intros Hct Ho Ho' Hn Hn'. unfold run, leffa_predict, call_resize_and_center.
  destruct Hct as [-> | ->]; cbn [existsb String.eqb Ascii.eqb Bool.eqb orb assert andb].
  all: unfold mbind, M_bind, bind, invoke, ret, raise; cbn [world log app]; rewrite Ho;
    cbn [world log app]; rewrite Ho'; cbn [world log app]; rewrite Hn;
    cbn [world log app]; rewrite Hn'; reflexivity.
Qed.

(** C7. With a valid task selector, an image that cannot be parsed makes
    [leffa_predict] raise the exception of the failed step (the spec's
    DecodeError) before any predictor or back end is invoked, wherever the
    failure shows: [Image.open] raises on the source path (line 42); or it
    returns on it and raises on the reference path (line 43); or both files
    open and [resize_and_center], where PIL first decodes the pixels, raises
    on the source image (line 44); or it returns on the source image and
    raises on the reference image (line 45).  In each case the log holds
    the calls of [Image.open] made so far and nothing else. *)
Theorem decode_error_before_predictors src ref control_type w :
  control_type = "virtual_tryon" \/ control_type = "pose_transfer" ->
  (forall e w1,
     Image_open env src w = (Raise e, w1) ->
     run (leffa_predict env src ref control_type) w =
       (Raise e, mkState w1 [Call_Image_open src (Raise e)])) /\
  (forall i w1 e w2,
     Image_open env src w = (Return i, w1) ->
     Image_open env ref w1 = (Raise e, w2) ->
     run (leffa_predict env src ref control_type) w =
       (Raise e, mkState w2 [Call_Image_open src (Return i);
                            Call_Image_open ref (Raise e)])) /\
  (forall i w1 i' w2 e,
     Image_open env src w = (Return i, w1) ->
     Image_open env ref w1 = (Return i', w2) ->
     normalizer_raises env i = Some e ->
     run (leffa_predict env src ref control_type) w =
       (Raise e, mkState w2 [Call_Image_open src (Return i);
                            Call_Image_open ref (Return i')])) /\
  (forall i w1 i' w2 e,
     Image_open env src w = (Return i, w1) ->
     Image_open env ref w1 = (Return i', w2) ->
     normalizer_raises env i = None ->
     normalizer_raises env i' = Some e ->
     run (leffa_predict env src ref control_type) w =
       (Raise e, mkState w2 [Call_Image_open src (Return i);
                            Call_Image_open ref (Return i')])) /\
  ((exists e w1, Image_open env src w = (Raise e, w1)) \/
   (exists i w1 e w2, Image_open env src w = (Return i, w1) /\
                      Image_open env ref w1 = (Raise e, w2)) \/
   (exists i w1 i' w2 e, Image_open env src w = (Return i, w1) /\
                         Image_open env ref w1 = (Return i', w2) /\
                         (normalizer_raises env i = Some e \/
                          normalizer_raises env i' = Some e)) ->
   Forall (fun ev => is_open ev = true) (trace env src ref control_type w)).
Proof.
  intros Hct. split; [|split; [|split; [|split]]].
  - intros e w1 Ho. apply open_src_raises; assumption.
  - intros i w1 e w2 Ho Ho'. apply (open_ref_raises _ _ _ _ _ _ _ _ Hct Ho Ho').
  - intros i w1 i' w2 e Ho Ho' Hn. apply (normalize_src_raises _ _ _ _ _ _ _ _ _ Hct Ho Ho' Hn).
  - intros i w1 i' w2 e Ho Ho' Hn Hn'.
    apply (normalize_ref_raises _ _ _ _ _ _ _ _ _ Hct Ho Ho' Hn Hn').
  - intros [(e & w1 & Ho) | [(i & w1 & e & w2 & Ho & Ho') |
                             (i & w1 & i' & w2 & e & Ho & Ho' & Hn)]]; unfold trace.
    + rewrite (open_src_raises _ ref _ _ _ _ Hct Ho). repeat constructor.
    + rewrite (open_ref_raises _ _ _ _ _ _ _ _ Hct Ho Ho'). repeat constructor.
    + destruct (normalizer_raises env i) as [e0|] eqn:Hi.
      * rewrite (normalize_src_raises _ _ _ _ _ _ _ _ _ Hct Ho Ho' Hi). repeat constructor.
      * destruct Hn as [Hn | Hn]; [discriminate Hn|].
        rewrite (normalize_ref_raises _ _ _ _ _ _ _ _ _ Hct Ho Ho' Hi Hn). repeat constructor.
Qed.

Lemma request_src s r m p : request s r m p !! "src_image" = Some [s].
Proof. reflexivity. Qed.
Lemma request_ref s r m p : request s r m p !! "ref_image" = Some [r].
Proof. reflexivity. Qed.
Lemma request_mask s r m p : request s r m p !! "mask" = Some [m].
Proof. reflexivity. Qed.
Lemma request_densepose s r m p : request s r m p !! "densepose" = Some [p].
Proof. reflexivity. Qed.

(** C3. In a virtual try-on run that assembles a request, the mask of the
    request is the value under "mask" of the dict that the mask predictor
    returned when called, with the hint "upper", on the normalised source
    image after its conversion to RGB; it is that value also where it
    differs from the all-white image that line 55 would build. *)
Theorem vt_mask_is_predictor_output src ref w d r :
  In (Call_transform d r) (trace env src ref "virtual_tryon" w) ->
  exists i w1 i' w2 dct w3 m,
    Image_open env src w = (Return i, w1) /\
    Image_open env ref w1 = (Return i', w2) /\
    mask_predictor env (convert_RGB (norm i)) "upper" w2 = (Return dct, w3) /\
    In (Call_mask_predictor (convert_RGB (norm i)) "upper" (Return dct))
       (trace env src ref "virtual_tryon" w) /\
    dct !! "mask" = Some m /\
    d !! "mask" = Some [m] /\
    (forall white,
       Image_fromarray (white_like (np.array (norm i))) = Return white ->
       m <> white -> d !! "mask" <> Some [white]).
Proof.
  intros H. destruct (vt_request env _ _ _ _ _ H) as (pre & rest & Ha & Htr & _).
  destruct Ha as [i w1 i' w2 dct w3 m a1 w4 a2 w5 iuv seg r w6 Ho Ho' Hn Hn' Hm Hk Hi Hs Hfi Hfs Ht].
  exists i, w1, i', w2, dct, w3, m. rewrite Htr, request_mask.
  repeat split; try assumption.
  - cbn [app In]. auto.
  - intros white _ Hne [= ->]. apply Hne. reflexivity.
Qed.

(** Whatever the collaborators do, a pose transfer never calls the mask
    predictor, and once [predict_iuv] has returned [predict_seg] is called
    on the same array. *)
Lemma pt_calls src ref w :
  Forall (fun ev => is_mask_call ev = false) (trace env src ref "pose_transfer" w) /\
  (forall a a1, In (Call_predict_iuv a (Return a1)) (trace env src ref "pose_transfer" w) ->
                exists r, In (Call_predict_seg a r) (trace env src ref "pose_transfer" w)).
Proof.
  remember (trace env src ref "pose_transfer" w) as tr eqn:Htr.
  unfold_run Htr. exec_in Htr.
  all: subst tr; split; [repeat constructor |].
  all: intros ? ? H; cbn [In] in H.
  all: repeat destruct H as [H | H]; try discriminate H; try contradiction.
  all: injection H as <- <-; eexists; cbn [In]; eauto 10.
Qed.


(** C4. A pose transfer never calls the mask predictor, whatever the run
    does; and when it assembles a request, the mask of the request is the
    image made from [np.ones_like(src_image_array) * 255]: it has the width
    and the height of the normalised source image and every sample of it
    is 255. *)
Theorem pt_mask_all_white src ref w :
  Forall (fun ev => is_mask_call ev = false) (trace env src ref "pose_transfer" w) /\
  (forall d r,
     In (Call_transform d r) (trace env src ref "pose_transfer" w) ->
     exists i w1 m,
       Image_open env src w = (Return i, w1) /\
       d !! "mask" = Some [m] /\
       Image_fromarray (white_like (np.array (norm i))) = Return m /\
       width m = width (norm i) /\ height m = height (norm i) /\
       pixels m = repeat 255%N (length (pixels (norm i))) /\
       Forall (fun v => v = 255%N) (pixels m)).
Proof.
  split; [apply pt_calls |].
  intros d r H. destruct (pt_request env _ _ _ _ _ H) as (pre & rest & Ha & _).
  destruct Ha as [i w1 i' w2 m a1 w3 a2 w4 iuv seg r w5 Ho Ho' Hn Hn' Hm Hi Hs Hfi Hfs Ht].
  destruct (white_like_image _ _ Hm) as (_ & Hw & Hh & Hp).
  exists i, w1, m. rewrite request_mask. repeat split; try assumption.
  rewrite Hp. apply Forall_repeat_same.
Qed.

(** C5. The dense map of an assembled request is chosen by the task: for
    virtual try-on it is the image made from what [predict_seg] returned on
    the array of the normalised source image, for pose transfer the image
    made from what [predict_iuv] returned on that same array. *)
Theorem dense_map_by_task src ref w d r :
  (In (Call_transform d r) (trace env src ref "virtual_tryon" w) ->
   exists i w1 a seg,
     Image_open env src w = (Return i, w1) /\
     In (Call_predict_seg (np.array (norm i)) (Return a))
        (trace env src ref "virtual_tryon" w) /\
     Image_fromarray a = Return seg /\
     d !! "densepose" = Some [seg]) /\
  (In (Call_transform d r) (trace env src ref "pose_transfer" w) ->
   exists i w1 a iuv,
     Image_open env src w = (Return i, w1) /\
     In (Call_predict_iuv (np.array (norm i)) (Return a))
        (trace env src ref "pose_transfer" w) /\
     Image_fromarray a = Return iuv /\
     d !! "densepose" = Some [iuv]).
Proof.
  split; intros H.
  - destruct (vt_request env _ _ _ _ _ H) as (pre & rest & Ha & Htr & _).
    destruct Ha as [i w1 i' w2 dct w3 m a1 w4 a2 w5 iuv seg r w6 Ho Ho' Hn Hn' Hm Hk Hi Hs Hfi Hfs Ht].
    exists i, w1, a2, seg. rewrite Htr, request_densepose.
    repeat split; try assumption. cbn [app In]. auto 10.
  - destruct (pt_request env _ _ _ _ _ H) as (pre & rest & Ha & Htr & _).
    destruct Ha as [i w1 i' w2 m a1 w3 a2 w4 iuv seg r w5 Ho Ho' Hn Hn' Hm Hi Hs Hfi Hfs Ht].
    exists i, w1, a1, iuv. rewrite Htr, request_densepose.
    repeat split; try assumption. cbn [app In]. auto 10.
Qed.

End Claims.

(** ** From the collaborators' answers to the log *)

Section Forward.

Context {W T : Type}.
Variable env : Env W T.

Lemma vt_assembled_trace src ref w d r pre :
  vt_assembled env src ref w d r pre ->
  exists rest, trace env src ref "virtual_tryon" w = pre ++ rest.
Proof.
  intros [i w1 i' w2 dct w3 m a1 w4 a2 w5 iuv seg r' w6 Ho Ho' Hn Hn' Hm Hk Hi Hs Hfi Hfs Ht].
  remember (trace env src ref "virtual_tryon" w) as tr eqn:Htr.
  unfold_run Htr.
  cbn -[np.array convert_RGB Image_fromarray np.mul np.ones_like lookup insert] in Htr.
  step_with Ho Htr. step_with Ho' Htr. step_with Hn Htr. step_with Hn' Htr. step_with Hm Htr. step_with Hk Htr.
  step_with Hi Htr. step_with Hs Htr. step_with Hfi Htr. step_with Hfs Htr.
  fold (request (convert_RGB (normalizer env i 768 1024)) (normalizer env i' 768 1024) m seg) in Htr.
  step_with Ht Htr.
  exec_in Htr.
  all: subst tr; eexists; reflexivity.
Qed.

Lemma pt_assembled_trace src ref w d r pre :
  pt_assembled env src ref w d r pre ->
  exists rest, trace env src ref "pose_transfer" w = pre ++ rest.
Proof.
  intros [i w1 i' w2 m a1 w3 a2 w4 iuv seg r' w5 Ho Ho' Hn Hn' Hm Hi Hs Hfi Hfs Ht].
  remember (trace env src ref "pose_transfer" w) as tr eqn:Htr.
  unfold_run Htr.
  cbn -[np.array convert_RGB Image_fromarray np.mul np.ones_like lookup insert] in Htr.
  step_with Ho Htr. step_with Ho' Htr. step_with Hn Htr. step_with Hn' Htr.
  fold (white_like (np.array (normalizer env i 768 1024))) in Htr.
  step_with Hm Htr.
  step_with Hi Htr. step_with Hs Htr. step_with Hfi Htr. step_with Hfs Htr.
  fold (request (normalizer env i 768 1024) (normalizer env i' 768 1024) m iuv) in Htr.
  step_with Ht Htr.
  exec_in Htr.
  all: subst tr; eexists; reflexivity.
Qed.



End Forward.

(** ** Requests of a log *)

Lemma requests_app {T} (l1 l2 : list (event T)) :
  requests (l1 ++ l2) = requests l1 ++ requests l2.
Proof. unfold requests. apply flat_map_app. Qed.

Lemma requests_backend {T} (l : list (event T)) :
  Forall (fun ev => is_backend_call ev = true) l -> requests l = [].
Proof.
  induction 1 as [|ev l Hev _ IH]; [reflexivity|].
  destruct ev; try discriminate Hev; exact IH.
Qed.

Lemma in_requests {T} (l : list (event T)) d :
  In d (requests l) -> exists r, In (Call_transform d r) l.
Proof.
  induction l as [|ev l IH]; simpl; [intros []|].
  intros H. apply in_app_or in H. destruct H as [H|H].
  - destruct ev; simpl in H; try contradiction.
    destruct H as [->|[]]. eauto.
  - destruct (IH H) as [r Hr]. eauto.
Qed.

Lemma requests_in {T} (l : list (event T)) d r :
  In (Call_transform d r) l -> In d (requests l).
Proof.
  induction l as [|ev l IH]; simpl; [intros []|].
  intros [->|H]; apply in_or_app; [left; simpl; auto | right; auto].
Qed.

Section Determinism.

Context {W T : Type}.
Variable env : Env W T.
Variables src ref : string.

Hypothesis open_src_det : deterministic (Image_open env src).
Hypothesis open_ref_det : deterministic (Image_open env ref).
Hypothesis mask_det : forall img hint, deterministic (mask_predictor env img hint).
Hypothesis iuv_det : forall a, deterministic (predict_iuv env a).
Hypothesis seg_det : forall a, deterministic (predict_seg env a).

(** The answer of a deterministic call in another world. *)
Lemma same_answer {A} (c : W -> outcome A * W) (w w' : W) (o : outcome A) (w1 : W) :
  deterministic c -> c w = (o, w1) -> exists w1', c w' = (o, w1').
Proof.
  intros Hd Hc. specialize (Hd w w'). rewrite Hc in Hd. simpl in Hd.
  destruct (c w') as [o' w1']. simpl in Hd. subst o'. eauto.
Qed.

Lemma vt_assembled_anywhere w d r pre w' :
  vt_assembled env src ref w d r pre ->
  exists r' pre', vt_assembled env src ref w' d r' pre'.
Proof.
  intros [i w1 i' w2 dct w3 m a1 w4 a2 w5 iuv seg r0 w6 Ho Ho' Hn Hn' Hm Hk Hi Hs Hfi Hfs Ht].
  destruct (same_answer _ w w' _ _ open_src_det Ho) as [v1 E1].
  destruct (same_answer _ w1 v1 _ _ open_ref_det Ho') as [v2 E2].
  destruct (same_answer _ w2 v2 _ _ (mask_det _ _) Hm) as [v3 E3].
  destruct (same_answer _ w3 v3 _ _ (iuv_det _) Hi) as [v4 E4].
  destruct (same_answer _ w4 v4 _ _ (seg_det _) Hs) as [v5 E5].
  destruct (LeffaTransform env
              (request (convert_RGB (normalizer env i 768 1024))
                       (normalizer env i' 768 1024) m seg) v5) as [r' v6] eqn:E6.
  eexists _, _. econstructor; eassumption.
Qed.

Lemma pt_assembled_anywhere w d r pre w' :
  pt_assembled env src ref w d r pre ->
  exists r' pre', pt_assembled env src ref w' d r' pre'.
Proof.
  intros [i w1 i' w2 m a1 w3 a2 w4 iuv seg r0 w5 Ho Ho' Hn Hn' Hm Hi Hs Hfi Hfs Ht].
  destruct (same_answer _ w w' _ _ open_src_det Ho) as [v1 E1].
  destruct (same_answer _ w1 v1 _ _ open_ref_det Ho') as [v2 E2].
  destruct (same_answer _ w2 v2 _ _ (iuv_det _) Hi) as [v3 E3].
  destruct (same_answer _ w3 v3 _ _ (seg_det _) Hs) as [v4 E4].
  destruct (LeffaTransform env
              (request (normalizer env i 768 1024)
                       (normalizer env i' 768 1024) m iuv) v4) as [r' v5] eqn:E5.
  eexists _, _. econstructor; eassumption.
Qed.

(** A request assembled in one world is assembled in every other one. *)
Lemma request_anywhere control_type w w' d :
  In d (requests (trace env src ref control_type w)) ->
  In d (requests (trace env src ref control_type w')).
Proof.
  intros H. apply in_requests in H. destruct H as [r H].
  destruct (task_cases control_type) as [-> | [-> | [H1 H2]]].
  - destruct (vt_request env _ _ _ _ _ H) as (pre & rest & Ha & _).
    destruct (vt_assembled_anywhere _ _ _ _ w' Ha) as (r' & pre' & Ha').
    destruct (vt_assembled_trace env _ _ _ _ _ _ Ha') as [rest' Htr].
    rewrite Htr, requests_app. apply in_or_app. left.
    destruct Ha'. cbn. auto.
  - destruct (pt_request env _ _ _ _ _ H) as (pre & rest & Ha & _).
    destruct (pt_assembled_anywhere _ _ _ _ w' Ha) as (r' & pre' & Ha').
    destruct (pt_assembled_trace env _ _ _ _ _ _ Ha') as [rest' Htr].
    rewrite Htr, requests_app. apply in_or_app. left.
    destruct Ha'. cbn. auto.
  - rewrite (invalid_task_trace env _ _ _ _ H1 H2) in H. destruct H.
Qed.

(** A run assembles at most one request. *)
Lemma requests_at_most_one control_type w :
  requests (trace env src ref control_type w) = [] \/
  exists d, requests (trace env src ref control_type w) = [d].
Proof.
  destruct (requests (trace env src ref control_type w)) as [|d l] eqn:E; [auto|right].
  assert (In d (requests (trace env src ref control_type w))) as H by (rewrite E; left; reflexivity).
  apply in_requests in H. destruct H as [r H].
  exists d. rewrite <- E.
  destruct (task_cases control_type) as [-> | [-> | [H1 H2]]].
  - destruct (vt_request env _ _ _ _ _ H) as (pre & rest & Ha & Htr & Hb).
    rewrite Htr, requests_app, (requests_backend _ Hb). destruct Ha. reflexivity.
  - destruct (pt_request env _ _ _ _ _ H) as (pre & rest & Ha & Htr & Hb).
    rewrite Htr, requests_app, (requests_backend _ Hb). destruct Ha. reflexivity.
  - rewrite (invalid_task_trace env _ _ _ _ H1 H2) in H. destruct H.
Qed.

(** C8. When opening the source path and the reference path gives the same
    answer in every world, and the mask predictor and both outputs of the
    dense-surface predictor are deterministic, two runs on the same paths
    and the same task selector, started in any two worlds, assemble the
    same requests: both none, or both one dict with equal source image,
    reference image, mask and dense map.  Nothing is asked of the transform
    or of the back ends. *)
Theorem requests_deterministic control_type w1 w2 :
  requests (trace env src ref control_type w1) =
  requests (trace env src ref control_type w2).
Proof.
  destruct (requests_at_most_one control_type w1) as [E1 | [d1 E1]],
           (requests_at_most_one control_type w2) as [E2 | [d2 E2]].
  - congruence.
  - assert (In d2 (requests (trace env src ref control_type w1))) as H.
    { apply (request_anywhere _ w2). rewrite E2. left. reflexivity. }
    rewrite E1 in H. destruct H.
  - assert (In d1 (requests (trace env src ref control_type w2))) as H.
    { apply (request_anywhere _ w1). rewrite E1. left. reflexivity. }
    rewrite E2 in H. destruct H.
  - assert (In d1 (requests (trace env src ref control_type w2))) as H.
    { apply (request_anywhere _ w1). rewrite E1. left. reflexivity. }
    rewrite E2 in H. destruct H as [-> | []]. congruence.
Qed.

End Determinism.

Section Requests.

Context {W T : Type}.
Variable env : Env W T.

Abbreviation norm i := (normalizer env i 768 1024).

(** C9. The conversion to RGB is on the virtual try-on path only.  In a
    virtual try-on run that assembles a request, the mask predictor is
    called on the converted image and the request carries the converted
    image as its source, while both calls of the dense-surface predictor get
    the array taken from the normalised source before the conversion and the
    reference image is not converted.  In a pose transfer run that assembles
    a request, the source and the reference of the request are the
    normalised images as they are, the dense-surface predictor gets the
    array of the normalised source, and there is no other call before the
    transform. *)
Theorem rgb_conversion_only_on_vt src ref w d r :
  (In (Call_transform d r) (trace env src ref "virtual_tryon" w) ->
   exists i w1 i' w2 dct a1 a2 m seg rest,
     Image_open env src w = (Return i, w1) /\
     Image_open env ref w1 = (Return i', w2) /\
     d = request (convert_RGB (norm i)) (norm i') m seg /\
     trace env src ref "virtual_tryon" w =
       [Call_Image_open src (Return i);
        Call_Image_open ref (Return i');
        Call_mask_predictor (convert_RGB (norm i)) "upper" (Return dct);
        Call_predict_iuv (np.array (norm i)) (Return a1);
        Call_predict_seg (np.array (norm i)) (Return a2);
        Call_transform d r] ++ rest /\
     Forall (fun ev => is_backend_call ev = true) rest) /\
  (In (Call_transform d r) (trace env src ref "pose_transfer" w) ->
   exists i w1 i' w2 a1 a2 m iuv rest,
     Image_open env src w = (Return i, w1) /\
     Image_open env ref w1 = (Return i', w2) /\
     Image_fromarray (white_like (np.array (norm i))) = Return m /\
     d = request (norm i) (norm i') m iuv /\
     trace env src ref "pose_transfer" w =
       [Call_Image_open src (Return i);
        Call_Image_open ref (Return i');
        Call_predict_iuv (np.array (norm i)) (Return a1);
        Call_predict_seg (np.array (norm i)) (Return a2);
        Call_transform d r] ++ rest /\
     Forall (fun ev => is_backend_call ev = true) rest).
Proof.
  split; intros H.
  - destruct (vt_request env _ _ _ _ _ H) as (pre & rest & Ha & Htr & Hb).
    destruct Ha as [i w1 i' w2 dct w3 m a1 w4 a2 w5 iuv seg r w6 Ho Ho' Hn Hn' Hm Hk Hi Hs Hfi Hfs Ht].
    exists i, w1, i', w2, dct, a1, a2, m, seg, rest. auto.
  - destruct (pt_request env _ _ _ _ _ H) as (pre & rest & Ha & Htr & Hb).
    destruct Ha as [i w1 i' w2 m a1 w3 a2 w4 iuv seg r w5 Ho Ho' Hn Hn' Hm Hi Hs Hfi Hfs Ht].
    exists i, w1, i', w2, a1, a2, m, iuv, rest. auto 10.
Qed.


End Requests.

Section Canvas.

Context {W T : Type}.
Variable env : Env W T.
Variable resample : Image -> nat -> nat -> Image.
Variable fill : N * N * N.

Abbreviation spec_env := (with_normalizer env (resize_and_center resample fill)).

(** C2. Whatever the image, the interpolation and the fill colour,
    [resize_and_center image 768 1024] is an RGB image of width 768 and
    height 1024 with 1024 rows of 768 pixels of three samples.  With that
    normalizer, the source and the reference image of every assembled
    request, for every task selector, have width 768 and height 1024. *)
Theorem normalizer_output_size :
  (forall image,
     width (resize_and_center resample fill image 768 1024) = 768 /\
     height (resize_and_center resample fill image 768 1024) = 1024 /\
     mode (resize_and_center resample fill image 768 1024) = RGB /\
     length (pixels (resize_and_center resample fill image 768 1024)) = 1024 * (768 * 3)) /\
  (forall src ref control_type w d r,
     In (Call_transform d r) (trace spec_env src ref control_type w) ->
     exists s r',
       d !! "src_image" = Some [s] /\ d !! "ref_image" = Some [r'] /\
       width s = 768 /\ height s = 1024 /\
       width r' = 768 /\ height r' = 1024).
Proof.
  assert (forall image,
     width (resize_and_center resample fill image 768 1024) = 768 /\
     height (resize_and_center resample fill image 768 1024) = 1024 /\
     mode (resize_and_center resample fill image 768 1024) = RGB /\
     length (pixels (resize_and_center resample fill image 768 1024)) = 1024 * (768 * 3))
    as Hsize.
  { intros image.
    destruct (resize_and_center_canvas resample fill image 768 1024) as (Hm & Hw & Hh & Hl).
    auto. }
  split; [exact Hsize|].
  intros src ref control_type w d r H.
  destruct (task_cases control_type) as [-> | [-> | [H1 H2]]].
  - destruct (vt_request _ _ _ _ _ _ H) as (pre & rest & Ha & _).
    destruct Ha as [i w1 i' w2 dct w3 m a1 w4 a2 w5 iuv seg r w6 Ho Ho' Hn Hn' Hm Hk Hi Hs Hfi Hfs Ht].
    eexists _, _. rewrite request_src, request_ref.
    split; [reflexivity|]. split; [reflexivity|].
    cbn [normalizer with_normalizer].
    destruct (Hsize i) as (Hw & Hh & Hmode & _), (Hsize i') as (Hw' & Hh' & _).
    rewrite (convert_RGB_id _ Hmode). auto.
  - destruct (pt_request _ _ _ _ _ _ H) as (pre & rest & Ha & _).
    destruct Ha as [i w1 i' w2 m a1 w3 a2 w4 iuv seg r w5 Ho Ho' Hn Hn' Hm Hi Hs Hfi Hfs Ht].
    eexists _, _. rewrite request_src, request_ref.
    split; [reflexivity|]. split; [reflexivity|].
    cbn [normalizer with_normalizer].
    destruct (Hsize i) as (Hw & Hh & _), (Hsize i') as (Hw' & Hh' & _). auto.
  - rewrite (invalid_task_trace _ _ _ _ _ H1 H2) in H. destruct H.
Qed.

(** C6, as amended.  On the pose transfer path the mask of an assembled
    request has the mode, the width, the height and the number of samples of
    the normalised source image; with the normalizer of the spec, whose
    output is RGB, it is a three-band 768x1024 image.  On the virtual try-on
    path it is what the mask predictor returned under "mask", as returned. *)
Theorem pt_mask_has_source_bands src ref w d r :
  (In (Call_transform d r) (trace env src ref "pose_transfer" w) ->
   exists i w1 m,
     Image_open env src w = (Return i, w1) /\
     d !! "mask" = Some [m] /\
     mode m = mode (normalizer env i 768 1024) /\
     width m = width (normalizer env i 768 1024) /\
     height m = height (normalizer env i 768 1024) /\
     length (pixels m) = length (pixels (normalizer env i 768 1024))) /\
  (In (Call_transform d r) (trace spec_env src ref "pose_transfer" w) ->
   exists m,
     d !! "mask" = Some [m] /\
     mode m = RGB /\ bands (mode m) = 3 /\
     width m = 768 /\ height m = 1024 /\
     length (pixels m) = 1024 * (768 * 3)) /\
  (In (Call_transform d r) (trace env src ref "virtual_tryon" w) ->
   exists img w2 dct w3 m,
     mask_predictor env img "upper" w2 = (Return dct, w3) /\
     dct !! "mask" = Some m /\
     d !! "mask" = Some [m]).
Proof.
  split; [|split]; intros H.
  - destruct (pt_request _ _ _ _ _ _ H) as (pre & rest & Ha & _).
    destruct Ha as [i w1 i' w2 m a1 w3 a2 w4 iuv seg r w5 Ho Ho' Hn Hn' Hm Hi Hs Hfi Hfs Ht].
    destruct (white_like_image _ _ Hm) as (Hmode & Hw & Hh & Hp).
    exists i, w1, m. rewrite request_mask, Hp, repeat_length. auto 10.
  - destruct (pt_request _ _ _ _ _ _ H) as (pre & rest & Ha & _).
    destruct Ha as [i w1 i' w2 m a1 w3 a2 w4 iuv seg r w5 Ho Ho' Hn Hn' Hm Hi Hs Hfi Hfs Ht].
    destruct (white_like_image _ _ Hm) as (Hmode & Hw & Hh & Hp).
    cbn [normalizer with_normalizer] in Hmode, Hw, Hh, Hp.
    destruct (resize_and_center_canvas resample fill i 768 1024) as (Hm' & Hw' & Hh' & Hl').
    exists m. rewrite request_mask, Hmode, Hw, Hh, Hp, repeat_length, Hm'.
    auto 10.
  - destruct (vt_request _ _ _ _ _ _ H) as (pre & rest & Ha & _).
    destruct Ha as [i w1 i' w2 dct w3 m a1 w4 a2 w5 iuv seg r w6 Ho Ho' Hn Hn' Hm Hk Hi Hs Hfi Hfs Ht].
    exists (convert_RGB (normalizer env i 768 1024)), w2, dct, w3, m.
    rewrite request_mask. auto.
Qed.

End Canvas.

(** ** Two runs in the small world *)

Import Demo.

Lemma vt_assembled_in {W T} (env : Env W T) src ref w d r pre :
  vt_assembled env src ref w d r pre -> In (Call_transform d r) pre.
Proof. intros []. cbn [In]. auto 10. Qed.

Lemma pt_assembled_in {W T} (env : Env W T) src ref w d r pre :
  pt_assembled env src ref w d r pre -> In (Call_transform d r) pre.
Proof. intros []. cbn [In]. auto 10. Qed.

Lemma demo_vt_in :
  In (Call_transform vt_data (Return vt_data))
     (trace Demo.env "person.png" "garment.png" "virtual_tryon" 0).
Proof.
  assert (exists pre, vt_assembled Demo.env "person.png" "garment.png" 0
                        vt_data (Return vt_data) pre) as [pre Ha].
  { eexists.
    apply (Vt_assembled Demo.env "person.png" "garment.png" 0
             Demo.person 1 Demo.garment 2
             (<["mask" := Demo.agnostic]> (<["densepose" := mkImage L 1 1 [9%N]]> ∅)) 3
             Demo.agnostic
             (mkArray [1; 1; 3] [1; 2; 3]%N) 4 (mkArray [1; 1; 3] [7; 7; 7]%N) 5
             iuv_image seg_image (Return vt_data) 6). all: reflexivity. }
  destruct (vt_assembled_trace _ _ _ _ _ _ _ Ha) as [rest Htr].
  rewrite Htr. apply in_or_app. left.
  exact (vt_assembled_in _ _ _ _ _ _ _ Ha).
Qed.

Lemma demo_pt_in :
  In (Call_transform pt_data (Return pt_data))
     (trace Demo.env "person.png" "garment.png" "pose_transfer" 0).
Proof.
  assert (exists pre, pt_assembled Demo.env "person.png" "garment.png" 0
                        pt_data (Return pt_data) pre) as [pre Ha].
  { eexists.
    apply (Pt_assembled Demo.env "person.png" "garment.png" 0
             Demo.person 1 Demo.garment 2 white_mask
             (mkArray [1; 1; 3] [1; 2; 3]%N) 3 (mkArray [1; 1; 3] [7; 7; 7]%N) 4
             iuv_image seg_image (Return pt_data) 5). all: reflexivity. }
  destruct (pt_assembled_trace _ _ _ _ _ _ _ Ha) as [rest Htr].
  rewrite Htr. apply in_or_app. left.
  exact (pt_assembled_in _ _ _ _ _ _ _ Ha).
Qed.

Lemma keep_vt_in :
  In (Call_transform keep_vt_data (Return keep_vt_data))
     (trace Demo.env_keep "person.png" "garment.png" "virtual_tryon" 0).
Proof.
  assert (exists pre, vt_assembled Demo.env_keep "person.png" "garment.png" 0
                        keep_vt_data (Return keep_vt_data) pre) as [pre Ha].
  { eexists.
    apply (Vt_assembled Demo.env_keep "person.png" "garment.png" 0
             Demo.person 1 Demo.garment 2
             (<["mask" := Demo.agnostic]> (<["densepose" := mkImage L 1 1 [9%N]]> ∅)) 3
             Demo.agnostic
             (mkArray [1; 1; 3] [1; 2; 3]%N) 4 (mkArray [1; 1; 3] [7; 7; 7]%N) 5
             iuv_image seg_image (Return keep_vt_data) 6). all: reflexivity. }
  destruct (vt_assembled_trace _ _ _ _ _ _ _ Ha) as [rest Htr].
  rewrite Htr. apply in_or_app. left.
  exact (vt_assembled_in _ _ _ _ _ _ _ Ha).
Qed.

(** The try-on run assembles exactly one request. *)
Lemma demo_requests :
  requests (trace Demo.env "person.png" "garment.png" "virtual_tryon" 0) = [vt_data].
Proof.
  pose proof (requests_in _ _ _ demo_vt_in) as Hin.
  destruct (requests_at_most_one Demo.env "person.png" "garment.png" "virtual_tryon" 0)
    as [E | [d E]]; rewrite E in Hin |- *.
  - destruct Hin.
  - destruct Hin as [-> | []]. reflexivity.
Qed.

(** The back end of the small world is not deterministic: its picture
    changes with the world. *)
Lemma demo_backend_not_deterministic : ~ deterministic (vt_inference Demo.env ∅).
Proof.
  intros H. specialize (H 0 1).
  apply (f_equal (fun o => match o with
                           | Return out => out !! "generated_image"
                           | Raise _ => None
                           end)) in H.
  vm_compute in H. discriminate H.
Qed.

(** ** The claims at the small world *)

Abbreviation person_png := "person.png".
Abbreviation garment_png := "garment.png".
Abbreviation dnorm i := (normalizer Demo.env i 768 1024).

(** Scenario B of the spec: the selector "invalid_task". *)
Lemma invalid_task_witness :
  leffa_predict Demo.env person_png garment_png "invalid_task" (mkState 0 []) =
    (Raise (AssertionError "Invalid control type: invalid_task"), mkState 0 []) /\
  trace Demo.env person_png garment_png "invalid_task" 0 = [].
Proof.
  apply (invalid_task_fails_first Demo.env person_png garment_png "invalid_task" (mkState 0 []));
    discriminate.
Defined.

(** Scenario C of the spec: a pose transfer whose reference path does not decode. *)
Lemma decode_error_witness :
  Image_open Demo.env "corrupt.png" 1 = (Raise (Foreign "PIL.UnidentifiedImageError"), 2) /\
  run (leffa_predict Demo.env person_png "corrupt.png" "pose_transfer") 0 =
    (Raise (Foreign "PIL.UnidentifiedImageError"),
     mkState 2 [Call_Image_open person_png (Return Demo.person);
                Call_Image_open "corrupt.png" (Raise (Foreign "PIL.UnidentifiedImageError"))]) /\
  normalizer_raises Demo.env cut_short = Some (Foreign "OSError: image file is truncated") /\
  run (leffa_predict Demo.env "truncated.png" garment_png "virtual_tryon") 0 =
    (Raise (Foreign "OSError: image file is truncated"),
     mkState 2 [Call_Image_open "truncated.png" (Return cut_short);
                Call_Image_open garment_png (Return garment)]).
Proof.
  split; [reflexivity|]. split.
  - apply (proj1 (proj2 (decode_error_before_predictors Demo.env person_png "corrupt.png"
                           "pose_transfer" 0 (or_intror eq_refl)))
             Demo.person 1 (Foreign "PIL.UnidentifiedImageError") 2); reflexivity.
  - split; [reflexivity|].
    apply (proj1 (proj2 (proj2 (decode_error_before_predictors Demo.env "truncated.png"
                                  garment_png "virtual_tryon" 0 (or_introl eq_refl))))
             cut_short 1 garment 2 (Foreign "OSError: image file is truncated")); reflexivity.
Defined.

Lemma normalizer_output_size_witness :
  In (Call_transform vt_data (Return vt_data))
     (trace (with_normalizer Demo.env (resize_and_center nearest Demo.white))
            person_png garment_png "virtual_tryon" 0) /\
  exists s r',
    vt_data !! "src_image" = Some [s] /\ vt_data !! "ref_image" = Some [r'] /\
    width s = 768 /\ height s = 1024 /\ width r' = 768 /\ height r' = 1024.
Proof.
  split; [exact demo_vt_in|].
  exact (proj2 (normalizer_output_size Demo.env nearest Demo.white)
           person_png garment_png "virtual_tryon" 0 vt_data (Return vt_data) demo_vt_in).
Defined.

Lemma vt_mask_witness :
  In (Call_transform vt_data (Return vt_data))
     (trace Demo.env person_png garment_png "virtual_tryon" 0) /\
  exists i w1 i' w2 dct w3 m,
    Image_open Demo.env person_png 0 = (Return i, w1) /\
    Image_open Demo.env garment_png w1 = (Return i', w2) /\
    mask_predictor Demo.env (convert_RGB (dnorm i)) "upper" w2 = (Return dct, w3) /\
    In (Call_mask_predictor (convert_RGB (dnorm i)) "upper" (Return dct))
       (trace Demo.env person_png garment_png "virtual_tryon" 0) /\
    dct !! "mask" = Some m /\
    vt_data !! "mask" = Some [m] /\
    (forall white,
       Image_fromarray (white_like (np.array (dnorm i))) = Return white ->
       m <> white -> vt_data !! "mask" <> Some [white]).
Proof.
  split; [exact demo_vt_in|].
  exact (vt_mask_is_predictor_output Demo.env person_png garment_png 0 vt_data
           (Return vt_data) demo_vt_in).
Defined.

Lemma pt_mask_witness :
  In (Call_transform pt_data (Return pt_data))
     (trace Demo.env person_png garment_png "pose_transfer" 0) /\
  exists i w1 m,
    Image_open Demo.env person_png 0 = (Return i, w1) /\
    pt_data !! "mask" = Some [m] /\
    Image_fromarray (white_like (np.array (dnorm i))) = Return m /\
    width m = width (dnorm i) /\ height m = height (dnorm i) /\
    pixels m = repeat 255%N (length (pixels (dnorm i))) /\
    Forall (fun v => v = 255%N) (pixels m).
Proof.
  split; [exact demo_pt_in|].
  exact (proj2 (pt_mask_all_white Demo.env person_png garment_png 0) pt_data
           (Return pt_data) demo_pt_in).
Defined.

Lemma dense_map_witness :
  In (Call_transform vt_data (Return vt_data))
     (trace Demo.env person_png garment_png "virtual_tryon" 0) /\
  exists i w1 a seg,
    Image_open Demo.env person_png 0 = (Return i, w1) /\
    In (Call_predict_seg (np.array (dnorm i)) (Return a))
       (trace Demo.env person_png garment_png "virtual_tryon" 0) /\
    Image_fromarray a = Return seg /\
    vt_data !! "densepose" = Some [seg].
Proof.
  split; [exact demo_vt_in|].
  exact (proj1 (dense_map_by_task Demo.env person_png garment_png 0 vt_data (Return vt_data))
           demo_vt_in).
Defined.

(** The request of a pose transfer whose mask is not single-channel: the
    mask made on line 55 from the array of an RGB image has three bands. *)
Lemma pt_mask_not_single_channel :
  exists d r m,
    In (Call_transform d r) (trace Demo.env person_png garment_png "pose_transfer" 0) /\
    d !! "mask" = Some [m] /\
    width m = 768 /\ height m = 1024 /\
    bands (mode m) = 3 /\ bands (mode m) <> 1.
Proof.
  exists pt_data, (Return pt_data), white_mask.
  split; [exact demo_pt_in|].
  split; [apply request_mask|].
  repeat split. discriminate.
Qed.

Lemma pt_mask_bands_witness :
  In (Call_transform pt_data (Return pt_data))
     (trace (with_normalizer Demo.env (resize_and_center nearest Demo.white))
            person_png garment_png "pose_transfer" 0) /\
  exists m,
    pt_data !! "mask" = Some [m] /\
    mode m = RGB /\ bands (mode m) = 3 /\
    width m = 768 /\ height m = 1024 /\
    length (pixels m) = 1024 * (768 * 3).
Proof.
  split; [exact demo_pt_in|].
  exact (proj1 (proj2 (pt_mask_has_source_bands Demo.env nearest Demo.white
                         person_png garment_png 0 pt_data (Return pt_data)))
           demo_pt_in).
Defined.

Lemma requests_deterministic_witness :
  deterministic (Image_open Demo.env person_png) /\
  deterministic (Image_open Demo.env garment_png) /\
  requests (trace Demo.env person_png garment_png "virtual_tryon" 0) =
  requests (trace Demo.env person_png garment_png "virtual_tryon" 7).
Proof.
  split; [intros w1 w2; reflexivity|].
  split; [intros w1 w2; reflexivity|].
  apply (requests_deterministic Demo.env person_png garment_png).
  - intros w1 w2; reflexivity.
  - intros w1 w2; reflexivity.
  - intros img hint w1 w2; reflexivity.
  - intros a w1 w2; reflexivity.
  - intros a w1 w2; reflexivity.
Defined.

(** In the world whose normalizer keeps the mode, the conversion can be
    seen: the request carries an RGB source while the array handed to the
    dense-surface predictor has the four bands of the RGBA source. *)
Lemma rgb_conversion_witness :
  In (Call_transform keep_vt_data (Return keep_vt_data))
     (trace Demo.env_keep person_png garment_png "virtual_tryon" 0) /\
  mode keep_src = RGBA /\ mode (convert_RGB keep_src) = RGB /\
  shape (np.array keep_src) = [1024; 768; 4] /\
  exists i w1 i' w2 dct a1 a2 m seg rest,
    Image_open Demo.env_keep person_png 0 = (Return i, w1) /\
    Image_open Demo.env_keep garment_png w1 = (Return i', w2) /\
    keep_vt_data = request (convert_RGB (keep_mode i 768 1024)) (keep_mode i' 768 1024) m seg /\
    trace Demo.env_keep person_png garment_png "virtual_tryon" 0 =
      [Call_Image_open person_png (Return i);
       Call_Image_open garment_png (Return i');
       Call_mask_predictor (convert_RGB (keep_mode i 768 1024)) "upper" (Return dct);
       Call_predict_iuv (np.array (keep_mode i 768 1024)) (Return a1);
       Call_predict_seg (np.array (keep_mode i 768 1024)) (Return a2);
       Call_transform keep_vt_data (Return keep_vt_data)] ++ rest /\
    Forall (fun ev => is_backend_call ev = true) rest.
Proof.
  split; [exact keep_vt_in|].
  split; [reflexivity|]. split; [reflexivity|]. split; [reflexivity|].
  exact (proj1 (rgb_conversion_only_on_vt Demo.env_keep person_png garment_png 0 keep_vt_data
                  (Return keep_vt_data)) keep_vt_in).
Defined.


(** * More of [app.py]: every run of [leffa_predict] and the two entry points *)

(** Finishing tactics for the leaves of a symbolic execution. *)
Ltac in_cases H :=
  cbn [In] in H; repeat (destruct H as [H | H]); try discriminate H; try contradiction.

Ltac unfold_res H :=
  unfold run, leffa_predict, call_resize_and_center in H;
  unfold mbind, M_bind, bind, invoke, lift, mret, M_ret, local, getitem, first, raise, ret in H.

Ltac f_protocol := eexists; reflexivity.
Ltac f_stops := cbn; auto.
Ltac f_causes :=
  let He := fresh in
  intros ? He; first [discriminate He | injection He as <-];
  unfold own_failure;
  first [ left; reflexivity
        | right; left; eexists; eassumption
        | right; right; left; split; reflexivity
        | right; right; right; left; eexists; eassumption
        | right; right; right; right; left; reflexivity
        | right; right; right; right; right; reflexivity ].
Ltac f_generated :=
  let H := fresh in
  intros ? ? H; in_cases H; injection H as <- <-;
  unfold generated;
  repeat match goal with E : _ !! _ = _ |- _ => rewrite E end; reflexivity.
Ltac f_returned :=
  let He := fresh in
  intros ? He;
  first [ discriminate He
        | split; [reflexivity | split; [repeat constructor | eexists _, _; cbn [In]; eauto 10]] ].
Ltac f_batch :=
  let H := fresh in
  intros ? ? H; in_cases H; injection H as <- <-; eexists; cbn [In]; eauto 10.
Ltac f_mask :=
  let H := fresh in let Hk := fresh in
  intros ? ? ? H Hk; in_cases H; injection H as <- <- <-;
  first [congruence | split; [reflexivity | split; [repeat constructor | reflexivity]]].
Ltac f_shape :=
  let H1 := fresh in let H2 := fresh in let Hbad := fresh in
  intros ? ? ? ? ? H1 H2 Hbad; in_cases H1; in_cases H2;
  injection H1 as <- <-; injection H2 as <- <-;
  destruct Hbad as [Hbad | [[? ?] Hbad]];
  first [ solve [congruence]
        | split; [congruence | split; [reflexivity | repeat constructor]] ].
Ltac f_args :=
  let H := fresh in let Hk := fresh in
  intros ? H Hk; in_cases H; subst;
  first [ destruct Hk as [Hk | Hk]; discriminate Hk
        | eexists _, _; split; [eassumption | auto] ].

Ltac leaf :=
  unfold run_facts;
  split; [f_protocol | split; [f_stops | split; [f_causes | split; [f_generated |
  split; [f_returned | split; [f_batch | split; [f_mask | split; [f_shape | f_args]]]]]]]].

Section Facts.
Context {W T : Type}.
Variable env : Env W T.

Lemma vt_run_facts src ref w :
  run_facts env src ref "virtual_tryon" w Call_vt_inference true
    (fst (run (leffa_predict env src ref "virtual_tryon") w))
    (trace env src ref "virtual_tryon" w).
Proof.
  unfold trace.
  remember (run (leffa_predict env src ref "virtual_tryon") w) as res eqn:Hres.
  unfold_res Hres. exec_in Hres.
  all: subst res; cbn [fst snd log].
  all: leaf.
Qed.

Lemma pt_run_facts src ref w :
  run_facts env src ref "pose_transfer" w Call_pt_inference false
    (fst (run (leffa_predict env src ref "pose_transfer") w))
    (trace env src ref "pose_transfer" w).
Proof.
  unfold trace.
  remember (run (leffa_predict env src ref "pose_transfer") w) as res eqn:Hres.
  unfold_res Hres. exec_in Hres.
  all: subst res; cbn [fst snd log].
  all: leaf.
Qed.

End Facts.

(** ** Every run, call by call *)

Lemma stops_at_raise_spec {T A} (o : outcome A) (l1 : list (event T)) ev l2 e :
  stops_at_raise o (l1 ++ ev :: l2) -> raised ev = Some e -> l2 = [] /\ o = Raise e.
Proof.
  intros H Hev. induction l1 as [|ev1 l1 IH]; cbn [app stops_at_raise] in H.
  - rewrite Hev in H. exact H.
  - destruct (raised ev1) as [e1|]; [|auto].
    destruct H as [Hnil _]. destruct l1; discriminate Hnil.
Qed.

Lemma in_protocol {T} (tr : list (event T)) (p : list kind) ev :
  map kind_of tr `prefix_of` p -> In ev tr -> In (kind_of ev) p.
Proof.
  intros [k ->] Hin. apply in_or_app. left. apply in_map. exact Hin.
Qed.

Lemma protocol_invalid src ref control_type :
  control_type <> "virtual_tryon" -> control_type <> "pose_transfer" ->
  protocol src ref control_type = [].
Proof.
  intros H1 H2. unfold protocol.
  apply String.eqb_neq in H1, H2. rewrite H1, H2. reflexivity.
Qed.

Section Runs.
Context {W T : Type}.
Variable env : Env W T.

Abbreviation outcome_of src ref control_type w :=
  (fst (run (leffa_predict env src ref control_type) w)).

Lemma trace_prefix src ref control_type w :
  map kind_of (trace env src ref control_type w) `prefix_of` protocol src ref control_type.
Proof.
  destruct (task_cases control_type) as [-> | [-> | [H1 H2]]].
  - apply vt_run_facts.
  - apply pt_run_facts.
  - rewrite (invalid_task_trace env _ _ _ _ H1 H2). apply prefix_nil.
Qed.

(** X1. In every run, for every task selector, the calls are made in
    program order: the log read call by call is a prefix of the task's
    sequence (open source, open reference, mask predictor on the try-on
    path only, [predict_iuv], [predict_seg], transform, the task's back
    end), so no call is made twice and none out of turn. *)
Theorem call_protocol src ref control_type w :
  map kind_of (trace env src ref control_type w) `prefix_of` protocol src ref control_type.
Proof. apply trace_prefix. Qed.

(** X2. No exception of a collaborator is caught: a call that raised is
    the last entry of the log, and its exception is what [leffa_predict]
    raises. *)
Theorem raised_call_ends_run src ref control_type w l1 ev l2 e :
  trace env src ref control_type w = l1 ++ ev :: l2 ->
  raised ev = Some e ->
  l2 = [] /\ outcome_of src ref control_type w = Raise e.
Proof.
  intros Htr Hev.
  destruct (task_cases control_type) as [-> | [-> | [H1 H2]]].
  - destruct (vt_run_facts env src ref w) as (_ & Hs & _).
    rewrite Htr in Hs. exact (stops_at_raise_spec _ _ _ _ _ Hs Hev).
  - destruct (pt_run_facts env src ref w) as (_ & Hs & _).
    rewrite Htr in Hs. exact (stops_at_raise_spec _ _ _ _ _ Hs Hev).
  - rewrite (invalid_task_trace env _ _ _ _ H1 H2) in Htr. destruct l1; discriminate Htr.
Qed.

(** X3. The two entry points bound to the buttons fail only for a listed
    cause: the last logged call raised that very exception; or it is the
    exception [resize_and_center] raises on an image; or KeyError "mask"
    (try-on only); or the exception [Image.fromarray] raises on an array;
    or KeyError "generated_image"; or IndexError.  The function's own
    AssertionError of line 40 and an unbound [mask], [densepose] or
    [inference] are not among the causes. *)
Theorem entry_points_failure_causes src ref w e :
  (fst (run (leffa_predict_vt env src ref) w) = Raise e ->
   last_raised (trace env src ref "virtual_tryon" w) = Some e \/
   (exists img, normalizer_raises env img = Some e) \/
   e = KeyError "mask" \/
   (exists a, Image_fromarray a = Raise e) \/
   e = KeyError "generated_image" \/ e = IndexError) /\
  (fst (run (leffa_predict_pt env src ref) w) = Raise e ->
   last_raised (trace env src ref "pose_transfer" w) = Some e \/
   (exists img, normalizer_raises env img = Some e) \/
   (exists a, Image_fromarray a = Raise e) \/
   e = KeyError "generated_image" \/ e = IndexError).
Proof.
  split; intros He.
  - destruct (vt_run_facts env src ref w) as (_ & _ & Hc & _).
    destruct (Hc e He) as [H | [H | [[_ H] | [H | H]]]]; auto 10.
  - destruct (pt_run_facts env src ref w) as (_ & _ & Hc & _).
    destruct (Hc e He) as [H | [H | [[H _] | [H | H]]]]; auto 10.
    discriminate H.
Qed.

(** Which task a back end or mask predictor call belongs to. *)
Lemma task_of_call src ref control_type w (ev : event T) :
  In ev (trace env src ref control_type w) ->
  (kind_of ev = KVt -> control_type = "virtual_tryon") /\
  (kind_of ev = KPt -> control_type = "pose_transfer") /\
  (kind_of ev = KMask -> control_type = "virtual_tryon").
Proof.
  intros Hin. pose proof (in_protocol _ _ _ (trace_prefix src ref control_type w) Hin) as Hk.
  destruct (task_cases control_type) as [-> | [-> | [H1 H2]]].
  - cbn in Hk. repeat split; intros E; try reflexivity; rewrite E in Hk;
      repeat (destruct Hk as [Hk | Hk]; try discriminate Hk); destruct Hk.
  - cbn in Hk. repeat split; intros E; try reflexivity; rewrite E in Hk;
      repeat (destruct Hk as [Hk | Hk]; try discriminate Hk); destruct Hk.
  - rewrite (protocol_invalid _ _ _ H1 H2) in Hk. destruct Hk.
Qed.

(** X4. Lines 81-84 when the back end has returned [output]: without the
    key "generated_image" the function raises KeyError, with an empty list
    under it IndexError, and otherwise it returns the array of the first
    image of the list; the rest of the list and of the dict is ignored. *)
Theorem generated_image_decides_result src ref control_type w b output :
  In (Call_vt_inference b (Return output)) (trace env src ref control_type w) \/
  In (Call_pt_inference b (Return output)) (trace env src ref control_type w) ->
  (output !! "generated_image" = None ->
   outcome_of src ref control_type w = Raise (KeyError "generated_image")) /\
  (output !! "generated_image" = Some [] ->
   outcome_of src ref control_type w = Raise IndexError) /\
  (forall g gs, output !! "generated_image" = Some (g :: gs) ->
   outcome_of src ref control_type w = Return (np.array g)).
Proof.
  intros Hin.
  assert (outcome_of src ref control_type w = generated output) as ->.
  { destruct Hin as [Hin | Hin];
      destruct (task_of_call _ _ _ _ _ Hin) as (Hvt & Hpt & _).
    - rewrite (Hvt eq_refl) in Hin |- *.
      destruct (vt_run_facts env src ref w) as (_ & _ & _ & Hg & _). exact (Hg _ _ Hin).
    - rewrite (Hpt eq_refl) in Hin |- *.
      destruct (pt_run_facts env src ref w) as (_ & _ & _ & Hg & _). exact (Hg _ _ Hin). }
  unfold generated. repeat split.
  - intros ->. reflexivity.
  - intros ->. reflexivity.
  - intros g gs ->. reflexivity.
Qed.

(** X5. A run that returns has made every call of the task's sequence,
    each of them returned, and the value is the array of the first image
    under "generated_image" in what the back end returned. *)
Theorem returned_run_made_every_call src ref control_type w a :
  outcome_of src ref control_type w = Return a ->
  map kind_of (trace env src ref control_type w) = protocol src ref control_type /\
  Forall (fun ev => raised ev = None) (trace env src ref control_type w) /\
  exists b output g gs,
    (In (Call_vt_inference b (Return output)) (trace env src ref control_type w) \/
     In (Call_pt_inference b (Return output)) (trace env src ref control_type w)) /\
    output !! "generated_image" = Some (g :: gs) /\
    a = np.array g.
Proof.
  intros Ha.
  assert (forall output, generated output = Return a ->
            exists g gs, output !! "generated_image" = Some (g :: gs) /\ a = np.array g) as Hgen.
  { intros output. unfold generated.
    destruct (output !! "generated_image") as [[|g gs]|]; try discriminate.
    intros [= <-]. eauto. }
  destruct (task_cases control_type) as [-> | [-> | [H1 H2]]].
  - destruct (vt_run_facts env src ref w) as (_ & _ & _ & Hg & Hr & _).
    destruct (Hr a Ha) as (Hp & Hall & b & output & Hin).
    pose proof (Hg _ _ Hin) as Ho. rewrite Ha in Ho. symmetry in Ho.
    destruct (Hgen _ Ho) as (g & gs & Hk & ->).
    split; [exact Hp|]. split; [exact Hall|]. exists b, output, g, gs. auto.
  - destruct (pt_run_facts env src ref w) as (_ & _ & _ & Hg & Hr & _).
    destruct (Hr a Ha) as (Hp & Hall & b & output & Hin).
    pose proof (Hg _ _ Hin) as Ho. rewrite Ha in Ho. symmetry in Ho.
    destruct (Hgen _ Ho) as (g & gs & Hk & ->).
    split; [exact Hp|]. split; [exact Hall|]. exists b, output, g, gs. auto.
  - unfold run in Ha. rewrite (invalid_task_raises env _ _ _ _ H1 H2) in Ha. discriminate Ha.
Qed.

(** X6. Each back end serves its own task and is given what the transform
    returned: [vt_inference] is called on the try-on path only,
    [pt_inference] on the pose transfer path only, and the argument of
    either is the value that a logged call of the transform returned. *)
Theorem back_end_routing src ref control_type w b r :
  (In (Call_vt_inference b r) (trace env src ref control_type w) ->
   control_type = "virtual_tryon" /\
   exists d, In (Call_transform d (Return b)) (trace env src ref control_type w)) /\
  (In (Call_pt_inference b r) (trace env src ref control_type w) ->
   control_type = "pose_transfer" /\
   exists d, In (Call_transform d (Return b)) (trace env src ref control_type w)).
Proof.
  split; intros Hin; destruct (task_of_call _ _ _ _ _ Hin) as (Hvt & Hpt & _).
  - pose proof (Hvt eq_refl) as ->. split; [reflexivity|].
    destruct (vt_run_facts env src ref w) as (_ & _ & _ & _ & _ & Hb & _). exact (Hb _ _ Hin).
  - pose proof (Hpt eq_refl) as ->. split; [reflexivity|].
    destruct (pt_run_facts env src ref w) as (_ & _ & _ & _ & _ & Hb & _). exact (Hb _ _ Hin).
Qed.

(** X7. Line 53 when the mask predictor returns a dict without "mask":
    the function raises KeyError "mask"; the dense-surface predictor is not
    called and no request is assembled. *)
Theorem missing_mask_key src ref control_type w img hint dct :
  In (Call_mask_predictor img hint (Return dct)) (trace env src ref control_type w) ->
  dct !! "mask" = None ->
  outcome_of src ref control_type w = Raise (KeyError "mask") /\
  Forall (fun ev => is_dense_call ev = false) (trace env src ref control_type w) /\
  requests (trace env src ref control_type w) = [].
Proof.
  intros Hin Hk. destruct (task_of_call _ _ _ _ _ Hin) as (_ & _ & Hm).
  pose proof (Hm eq_refl) as ->.
  destruct (vt_run_facts env src ref w) as (_ & _ & _ & _ & _ & _ & Hmask & _).
  exact (Hmask _ _ _ Hin Hk).
Qed.

(** X8. Lines 58-61: both answers of the dense-surface predictor are turned
    into images before the task picks one.  When both calls returned and
    [Image.fromarray] raises on the IUV array, or accepts it and raises on
    the segmentation array, the function raises that exception, whichever
    of the two the task uses; no request is assembled and no back end is
    called. *)
Theorem unsupported_dense_shape src ref control_type w a1 arr1 a2 arr2 e :
  In (Call_predict_iuv a1 (Return arr1)) (trace env src ref control_type w) ->
  In (Call_predict_seg a2 (Return arr2)) (trace env src ref control_type w) ->
  Image_fromarray arr1 = Raise e \/
  (exists img, Image_fromarray arr1 = Return img) /\ Image_fromarray arr2 = Raise e ->
  outcome_of src ref control_type w = Raise e /\
  requests (trace env src ref control_type w) = [] /\
  Forall (fun ev => is_backend_call ev = false) (trace env src ref control_type w).
Proof.
  intros H1 H2 Hbad.
  destruct (task_cases control_type) as [-> | [-> | [Hn1 Hn2]]].
  - destruct (vt_run_facts env src ref w) as (_ & _ & _ & _ & _ & _ & _ & Hs & _).
    exact (Hs _ _ _ _ _ H1 H2 Hbad).
  - destruct (pt_run_facts env src ref w) as (_ & _ & _ & _ & _ & _ & _ & Hs & _).
    exact (Hs _ _ _ _ _ H1 H2 Hbad).
  - rewrite (invalid_task_trace env _ _ _ _ Hn1 Hn2) in H1. destruct H1.
Qed.

(** X9. In every run, failing or not, the predictors see the source image
    only: the mask predictor is called on the try-on path, with the hint
    "upper", on the normalised source image converted to RGB, and both
    dense calls get the array of the normalised source image.  The
    reference image and its array are given to no predictor. *)
Theorem predictors_see_source_only src ref control_type w :
  (forall img hint r,
     In (Call_mask_predictor img hint r) (trace env src ref control_type w) ->
     control_type = "virtual_tryon" /\ hint = "upper" /\
     exists i w1, Image_open env src w = (Return i, w1) /\
                  img = convert_RGB (normalizer env i 768 1024)) /\
  (forall a r,
     In (Call_predict_iuv a r) (trace env src ref control_type w) \/
     In (Call_predict_seg a r) (trace env src ref control_type w) ->
     exists i w1, Image_open env src w = (Return i, w1) /\
                  a = np.array (normalizer env i 768 1024)).
Proof.
  assert (forall ev, In ev (trace env src ref control_type w) ->
            is_mask_call ev = true \/ is_dense_call ev = true ->
            exists i w1,
              Image_open env src w = (Return i, w1) /\
              match ev with
              | Call_mask_predictor img hint _ =>
                  img = convert_RGB (normalizer env i 768 1024) /\ hint = "upper"
              | Call_predict_iuv a _ | Call_predict_seg a _ =>
                  a = np.array (normalizer env i 768 1024)
              | _ => True
              end) as Hargs.
  { destruct (task_cases control_type) as [-> | [-> | [Hn1 Hn2]]].
    - apply vt_run_facts.
    - apply pt_run_facts.
    - rewrite (invalid_task_trace env _ _ _ _ Hn1 Hn2). intros ev []. }
  split.
  - intros img hint r Hin.
    destruct (task_of_call _ _ _ _ _ Hin) as (_ & _ & Hm).
    destruct (Hargs _ Hin (or_introl eq_refl)) as (i & w1 & Ho & -> & ->).
    split; [exact (Hm eq_refl)|]. split; [reflexivity|]. eauto.
  - intros a r [Hin | Hin];
      destruct (Hargs _ Hin (or_intror eq_refl)) as (i & w1 & Ho & ->); eauto.
Qed.

End Runs.

(** ** The entry points when every call returns *)

Section Success.
Context {W T : Type}.
Variable env : Env W T.

Abbreviation norm i := (normalizer env i 768 1024).

(** X10. [leffa_predict_vt] returns when everything it calls does: with
    both files opening, [resize_and_center] returning on both images, a
    dict with "mask" from the mask predictor, two
    arrays that [Image.fromarray] accepts, a transform that returns and a
    try-on back end that returns at least one image under
    "generated_image", it returns the array of the first of them after
    seven calls, each made in the world the one before left. *)
Theorem leffa_predict_vt_returns src ref w i w1 i' w2 dct w3 m a1 w4 a2 w5
    iuv seg batch w6 output w7 g gs :
  Image_open env src w = (Return i, w1) ->
  Image_open env ref w1 = (Return i', w2) ->
  normalizer_raises env i = None ->
  normalizer_raises env i' = None ->
  mask_predictor env (convert_RGB (norm i)) "upper" w2 = (Return dct, w3) ->
  dct !! "mask" = Some m ->
  predict_iuv env (np.array (norm i)) w3 = (Return a1, w4) ->
  predict_seg env (np.array (norm i)) w4 = (Return a2, w5) ->
  Image_fromarray a1 = Return iuv ->
  Image_fromarray a2 = Return seg ->
  LeffaTransform env (request (convert_RGB (norm i)) (norm i') m seg) w5 = (Return batch, w6) ->
  vt_inference env batch w6 = (Return output, w7) ->
  output !! "generated_image" = Some (g :: gs) ->
  run (leffa_predict_vt env src ref) w =
    (Return (np.array g),
     mkState w7
       [Call_Image_open src (Return i);
        Call_Image_open ref (Return i');
        Call_mask_predictor (convert_RGB (norm i)) "upper" (Return dct);
        Call_predict_iuv (np.array (norm i)) (Return a1);
        Call_predict_seg (np.array (norm i)) (Return a2);
        Call_transform (request (convert_RGB (norm i)) (norm i') m seg) (Return batch);
        Call_vt_inference batch (Return output)]).
Proof.
  intros Ho Ho' Hn Hn' Hm Hk Hi Hs Hfi Hfs Ht Hb Hg.
  unfold leffa_predict_vt.
  remember (run (leffa_predict env src ref "virtual_tryon") w) as res eqn:Hres.
  unfold_res Hres.
  cbn -[np.array convert_RGB Image_fromarray np.mul np.ones_like lookup insert] in Hres.
  step_with Ho Hres. step_with Ho' Hres. step_with Hn Hres. step_with Hn' Hres. step_with Hm Hres. step_with Hk Hres.
  step_with Hi Hres. step_with Hs Hres. step_with Hfi Hres. step_with Hfs Hres.
  fold (request (convert_RGB (norm i)) (norm i') m seg) in Hres.
  step_with Ht Hres. step_with Hb Hres. step_with Hg Hres.
  exact Hres.
Qed.

(** X11. [leffa_predict_pt] returns when everything it calls does (both
    opens, [resize_and_center] on both images, both dense calls, both
    [Image.fromarray], the transform and the back end): the
    mask needs no collaborator, so six calls are made, the last to the pose
    transfer back end, and the value is the array of the first image it
    returned under "generated_image". *)
Theorem leffa_predict_pt_returns src ref w i w1 i' w2 m a1 w3 a2 w4
    iuv seg batch w5 output w6 g gs :
  Image_open env src w = (Return i, w1) ->
  Image_open env ref w1 = (Return i', w2) ->
  normalizer_raises env i = None ->
  normalizer_raises env i' = None ->
  Image_fromarray (white_like (np.array (norm i))) = Return m ->
  predict_iuv env (np.array (norm i)) w2 = (Return a1, w3) ->
  predict_seg env (np.array (norm i)) w3 = (Return a2, w4) ->
  Image_fromarray a1 = Return iuv ->
  Image_fromarray a2 = Return seg ->
  LeffaTransform env (request (norm i) (norm i') m iuv) w4 = (Return batch, w5) ->
  pt_inference env batch w5 = (Return output, w6) ->
  output !! "generated_image" = Some (g :: gs) ->
  run (leffa_predict_pt env src ref) w =
    (Return (np.array g),
     mkState w6
       [Call_Image_open src (Return i);
        Call_Image_open ref (Return i');
        Call_predict_iuv (np.array (norm i)) (Return a1);
        Call_predict_seg (np.array (norm i)) (Return a2);
        Call_transform (request (norm i) (norm i') m iuv) (Return batch);
        Call_pt_inference batch (Return output)]).
Proof.
  intros Ho Ho' Hn Hn' Hm Hi Hs Hfi Hfs Ht Hb Hg.
  unfold leffa_predict_pt.
  remember (run (leffa_predict env src ref "pose_transfer") w) as res eqn:Hres.
  unfold_res Hres.
  cbn -[np.array convert_RGB Image_fromarray np.mul np.ones_like lookup insert] in Hres.
  step_with Ho Hres. step_with Ho' Hres. step_with Hn Hres. step_with Hn' Hres.
  fold (white_like (np.array (norm i))) in Hres.
  step_with Hm Hres.
  step_with Hi Hres. step_with Hs Hres. step_with Hfi Hres. step_with Hfs Hres.
  fold (request (norm i) (norm i') m iuv) in Hres.
  step_with Ht Hres. step_with Hb Hres. step_with Hg Hres.
  exact Hres.
Qed.

End Success.

(** ** More runs in the small world *)

(** Run the function in a concrete world without building its images. *)
Ltac compute_run :=
  unfold trace, run, leffa_predict_vt, leffa_predict_pt, leffa_predict, call_resize_and_center;
  unfold mbind, M_bind, bind, invoke, lift, mret, M_ret, local, getitem, first, raise, ret;
  cbn -[Demo.normalize Demo.keep_mode np.array convert_RGB white_like np.mul np.ones_like insert].

Lemma demo_vt_run :
  run (leffa_predict Demo.env person_png garment_png "virtual_tryon") 0 =
  (Return (mkArray [1; 1] [6%N]),
   mkState 7 [Call_Image_open person_png (Return person);
              Call_Image_open garment_png (Return garment);
              Call_mask_predictor (convert_RGB src_n) "upper"
                (Return (<["mask" := agnostic]> (<["densepose" := mkImage L 1 1 [9%N]]> ∅)));
              Call_predict_iuv (np.array src_n) (Return (mkArray [1; 1; 3] [1; 2; 3]%N));
              Call_predict_seg (np.array src_n) (Return (mkArray [1; 1; 3] [7; 7; 7]%N));
              Call_transform vt_data (Return vt_data);
              Call_vt_inference vt_data (Return (picture 6))]).
Proof. compute_run. reflexivity. Qed.

Lemma demo_pt_run :
  run (leffa_predict Demo.env person_png garment_png "pose_transfer") 0 =
  (Return (mkArray [1; 1] [5%N]),
   mkState 6 [Call_Image_open person_png (Return person);
              Call_Image_open garment_png (Return garment);
              Call_predict_iuv (np.array src_n) (Return (mkArray [1; 1; 3] [1; 2; 3]%N));
              Call_predict_seg (np.array src_n) (Return (mkArray [1; 1; 3] [7; 7; 7]%N));
              Call_transform pt_data (Return pt_data);
              Call_pt_inference pt_data (Return (picture 5))]).
Proof. compute_run. reflexivity. Qed.

Lemma demo_corrupt_run :
  run (leffa_predict Demo.env person_png "corrupt.png" "pose_transfer") 0 =
  (Raise (Foreign "PIL.UnidentifiedImageError"),
   mkState 2 [Call_Image_open person_png (Return person);
              Call_Image_open "corrupt.png" (Raise (Foreign "PIL.UnidentifiedImageError"))]).
Proof. compute_run. reflexivity. Qed.

Lemma demo_nomask_run :
  run (leffa_predict env_nomask person_png garment_png "virtual_tryon") 0 =
  (Raise (KeyError "mask"),
   mkState 3 [Call_Image_open person_png (Return person);
              Call_Image_open garment_png (Return garment);
              Call_mask_predictor (convert_RGB src_n) "upper"
                (Return (<["densepose" := agnostic]> ∅))]).
Proof. compute_run. reflexivity. Qed.

Lemma demo_badshape_run :
  run (leffa_predict env_badshape person_png garment_png "virtual_tryon") 0 =
  (Raise (TypeError "Cannot handle this data type: (1, 1, 1, 1), |u1"),
   mkState 5 [Call_Image_open person_png (Return person);
              Call_Image_open garment_png (Return garment);
              Call_mask_predictor (convert_RGB src_n) "upper"
                (Return (<["mask" := agnostic]> (<["densepose" := mkImage L 1 1 [9%N]]> ∅)));
              Call_predict_iuv (np.array src_n) (Return (mkArray [1; 1; 1; 1] [0%N]));
              Call_predict_seg (np.array src_n) (Return (mkArray [1; 1; 3] [7; 7; 7]%N))]).
Proof. compute_run. reflexivity. Qed.

Lemma demo_nopicture_run :
  run (leffa_predict env_nopicture person_png garment_png "virtual_tryon") 0 =
  (Raise IndexError,
   mkState 7 [Call_Image_open person_png (Return person);
              Call_Image_open garment_png (Return garment);
              Call_mask_predictor (convert_RGB src_n) "upper"
                (Return (<["mask" := agnostic]> (<["densepose" := mkImage L 1 1 [9%N]]> ∅)));
              Call_predict_iuv (np.array src_n) (Return (mkArray [1; 1; 3] [1; 2; 3]%N));
              Call_predict_seg (np.array src_n) (Return (mkArray [1; 1; 3] [7; 7; 7]%N));
              Call_transform vt_data (Return vt_data);
              Call_vt_inference vt_data (Return (<["generated_image" := []]> ∅))]).
Proof. compute_run. reflexivity. Qed.

(** The trace of a run whose result is known. *)
Lemma trace_of_run {W T} (env : Env W T) src ref control_type w o s :
  run (leffa_predict env src ref control_type) w = (o, s) ->
  trace env src ref control_type w = log s /\
  fst (run (leffa_predict env src ref control_type) w) = o.
Proof. intros H. unfold trace. rewrite H. auto. Qed.

Lemma raised_call_witness :
  trace Demo.env person_png "corrupt.png" "pose_transfer" 0 =
    [Call_Image_open person_png (Return person)] ++
    Call_Image_open "corrupt.png" (Raise (Foreign "PIL.UnidentifiedImageError")) :: [] /\
  ([] = ([] : list (event (gmap string (list Image)))) /\
   fst (run (leffa_predict Demo.env person_png "corrupt.png" "pose_transfer") 0) =
     Raise (Foreign "PIL.UnidentifiedImageError")).
Proof.
  pose proof (proj1 (trace_of_run _ _ _ _ _ _ _ demo_corrupt_run)) as Htr.
  split; [exact Htr|].
  exact (raised_call_ends_run Demo.env person_png "corrupt.png" "pose_transfer" 0
           [Call_Image_open person_png (Return person)]
           (Call_Image_open "corrupt.png" (Raise (Foreign "PIL.UnidentifiedImageError")))
           [] (Foreign "PIL.UnidentifiedImageError") Htr eq_refl).
Defined.

Lemma entry_points_witness :
  fst (run (leffa_predict_vt env_nomask person_png garment_png) 0) = Raise (KeyError "mask") /\
  (last_raised (trace env_nomask person_png garment_png "virtual_tryon" 0) = Some (KeyError "mask") \/
   (exists img, normalizer_raises env_nomask img = Some (KeyError "mask")) \/
   KeyError "mask" = KeyError "mask" \/
   (exists a, Image_fromarray a = Raise (KeyError "mask")) \/
   KeyError "mask" = KeyError "generated_image" \/ KeyError "mask" = IndexError).
Proof.
  pose proof (proj2 (trace_of_run _ _ _ _ _ _ _ demo_nomask_run)) as Ho.
  split; [exact Ho|].
  exact (proj1 (entry_points_failure_causes env_nomask person_png garment_png 0 (KeyError "mask")) Ho).
Defined.

Lemma generated_image_witness :
  In (Call_vt_inference vt_data (Return (<["generated_image" := []]> ∅)))
     (trace env_nopicture person_png garment_png "virtual_tryon" 0) /\
  fst (run (leffa_predict env_nopicture person_png garment_png "virtual_tryon") 0) = Raise IndexError.
Proof.
  assert (In (Call_vt_inference vt_data (Return (<["generated_image" := []]> ∅)))
             (trace env_nopicture person_png garment_png "virtual_tryon" 0)) as Hin.
  { rewrite (proj1 (trace_of_run _ _ _ _ _ _ _ demo_nopicture_run)). cbn [log In]. auto 10. }
  split; [exact Hin|].
  exact (proj1 (proj2 (generated_image_decides_result env_nopicture person_png garment_png
                         "virtual_tryon" 0 vt_data _ (or_introl Hin))) eq_refl).
Defined.

Lemma returned_run_witness :
  fst (run (leffa_predict Demo.env person_png garment_png "virtual_tryon") 0) =
    Return (mkArray [1; 1] [6%N]) /\
  map kind_of (trace Demo.env person_png garment_png "virtual_tryon" 0) =
    protocol person_png garment_png "virtual_tryon".
Proof.
  pose proof (proj2 (trace_of_run _ _ _ _ _ _ _ demo_vt_run)) as Ho.
  split; [exact Ho|].
  exact (proj1 (returned_run_made_every_call Demo.env person_png garment_png "virtual_tryon" 0
                  _ Ho)).
Defined.

Lemma back_end_routing_witness :
  In (Call_pt_inference pt_data (Return (picture 5)))
     (trace Demo.env person_png garment_png "pose_transfer" 0) /\
  "pose_transfer" = "pose_transfer" /\
  exists d, In (Call_transform d (Return pt_data))
               (trace Demo.env person_png garment_png "pose_transfer" 0).
Proof.
  assert (In (Call_pt_inference pt_data (Return (picture 5)))
             (trace Demo.env person_png garment_png "pose_transfer" 0)) as Hin.
  { rewrite (proj1 (trace_of_run _ _ _ _ _ _ _ demo_pt_run)). cbn [log In]. auto 10. }
  split; [exact Hin|].
  exact (proj2 (back_end_routing Demo.env person_png garment_png "pose_transfer" 0
                  pt_data (Return (picture 5))) Hin).
Defined.

Lemma missing_mask_key_witness :
  In (Call_mask_predictor (convert_RGB src_n) "upper" (Return (<["densepose" := agnostic]> ∅)))
     (trace env_nomask person_png garment_png "virtual_tryon" 0) /\
  fst (run (leffa_predict env_nomask person_png garment_png "virtual_tryon") 0) =
    Raise (KeyError "mask") /\
  Forall (fun ev => is_dense_call ev = false)
         (trace env_nomask person_png garment_png "virtual_tryon" 0) /\
  requests (trace env_nomask person_png garment_png "virtual_tryon" 0) = [].
Proof.
  assert (In (Call_mask_predictor (convert_RGB src_n) "upper"
                (Return (<["densepose" := agnostic]> ∅)))
             (trace env_nomask person_png garment_png "virtual_tryon" 0)) as Hin.
  { rewrite (proj1 (trace_of_run _ _ _ _ _ _ _ demo_nomask_run)). cbn [log In]. auto 10. }
  split; [exact Hin|].
  exact (missing_mask_key env_nomask person_png garment_png "virtual_tryon" 0 _ _ _ Hin eq_refl).
Defined.

(** The array that the try-on task does not use is the one rejected. *)
Lemma unsupported_dense_shape_witness :
  Image_fromarray (mkArray [1; 1; 1; 1] [0%N]) =
    Raise (TypeError "Cannot handle this data type: (1, 1, 1, 1), |u1") /\
  fst (run (leffa_predict env_badshape person_png garment_png "virtual_tryon") 0) =
    Raise (TypeError "Cannot handle this data type: (1, 1, 1, 1), |u1") /\
  requests (trace env_badshape person_png garment_png "virtual_tryon" 0) = [] /\
  Forall (fun ev => is_backend_call ev = false)
         (trace env_badshape person_png garment_png "virtual_tryon" 0).
Proof.
  split; [reflexivity|].
  apply (unsupported_dense_shape env_badshape person_png garment_png "virtual_tryon" 0
           (np.array src_n) (mkArray [1; 1; 1; 1] [0%N])
           (np.array src_n) (mkArray [1; 1; 3] [7; 7; 7]%N)).
  - rewrite (proj1 (trace_of_run _ _ _ _ _ _ _ demo_badshape_run)). cbn [log In]. auto 10.
  - rewrite (proj1 (trace_of_run _ _ _ _ _ _ _ demo_badshape_run)). cbn [log In]. auto 10.
  - left. reflexivity.
Defined.

Lemma predictors_witness :
  In (Call_predict_seg (np.array src_n) (Return (mkArray [1; 1; 3] [7; 7; 7]%N)))
     (trace Demo.env person_png garment_png "virtual_tryon" 0) /\
  exists i w1, Image_open Demo.env person_png 0 = (Return i, w1) /\
               np.array src_n = np.array (normalizer Demo.env i 768 1024).
Proof.
  assert (In (Call_predict_seg (np.array src_n) (Return (mkArray [1; 1; 3] [7; 7; 7]%N)))
             (trace Demo.env person_png garment_png "virtual_tryon" 0)) as Hin.
  { rewrite (proj1 (trace_of_run _ _ _ _ _ _ _ demo_vt_run)). cbn [log In]. auto 10. }
  split; [exact Hin|].
  exact (proj2 (predictors_see_source_only Demo.env person_png garment_png "virtual_tryon" 0)
           _ _ (or_intror Hin)).
Defined.

Lemma leffa_predict_vt_witness :
  run (leffa_predict_vt Demo.env person_png garment_png) 0 =
  (Return (np.array (mkImage L 1 1 [6%N])),
   mkState 7 [Call_Image_open person_png (Return person);
              Call_Image_open garment_png (Return garment);
              Call_mask_predictor (convert_RGB src_n) "upper"
                (Return (<["mask" := agnostic]> (<["densepose" := mkImage L 1 1 [9%N]]> ∅)));
              Call_predict_iuv (np.array src_n) (Return (mkArray [1; 1; 3] [1; 2; 3]%N));
              Call_predict_seg (np.array src_n) (Return (mkArray [1; 1; 3] [7; 7; 7]%N));
              Call_transform vt_data (Return vt_data);
              Call_vt_inference vt_data (Return (picture 6))]).
Proof.
  apply (leffa_predict_vt_returns Demo.env person_png garment_png 0
           person 1 garment 2
           (<["mask" := agnostic]> (<["densepose" := mkImage L 1 1 [9%N]]> ∅)) 3 agnostic
           (mkArray [1; 1; 3] [1; 2; 3]%N) 4 (mkArray [1; 1; 3] [7; 7; 7]%N) 5
           iuv_image seg_image vt_data 6 (picture 6) 7 (mkImage L 1 1 [6%N]) []);
    reflexivity.
Defined.

Lemma leffa_predict_pt_witness :
  run (leffa_predict_pt Demo.env person_png garment_png) 0 =
  (Return (np.array (mkImage L 1 1 [5%N])),
   mkState 6 [Call_Image_open person_png (Return person);
              Call_Image_open garment_png (Return garment);
              Call_predict_iuv (np.array src_n) (Return (mkArray [1; 1; 3] [1; 2; 3]%N));
              Call_predict_seg (np.array src_n) (Return (mkArray [1; 1; 3] [7; 7; 7]%N));
              Call_transform pt_data (Return pt_data);
              Call_pt_inference pt_data (Return (picture 5))]).
Proof.
  apply (leffa_predict_pt_returns Demo.env person_png garment_png 0
           person 1 garment 2 white_mask
           (mkArray [1; 1; 3] [1; 2; 3]%N) 3 (mkArray [1; 1; 3] [7; 7; 7]%N) 4
           iuv_image seg_image pt_data 5 (picture 5) 6 (mkImage L 1 1 [5%N]) []);
    reflexivity.
Defined.

(** ** Runs that stop early *)

(** A source file that opens and is cut short: both files are opened, then
    [resize_and_center] raises on the source image; no predictor is called. *)
Lemma demo_truncated_run :
  normalizer_raises Demo.env cut_short = Some (Foreign "OSError: image file is truncated") /\
  run (leffa_predict Demo.env "truncated.png" garment_png "virtual_tryon") 0 =
    (Raise (Foreign "OSError: image file is truncated"),
     mkState 2 [Call_Image_open "truncated.png" (Return cut_short);
                Call_Image_open garment_png (Return garment)]).
Proof. split; [reflexivity|]. compute_run. reflexivity. Qed.

(** A one-dimensional array is an image to [Image.fromarray]: a column. *)
Lemma fromarray_column :
  Image_fromarray (mkArray [3] [7; 8; 9]%N) = Return (mkImage L 1 3 [7; 8; 9]%N).
Proof. reflexivity. Qed.


